(** * Voiceboard: persona workflow, conversation and session registry

    A shallow embedding of the TypeScript sources
      - workflow.ts            (module [Workflow])
      - the hardened revision of workflow.ts that wraps the provider
        calls in try/catch and exports [shouldSearchMore] and
        [generateResponse] (module [WorkflowSafe])
      - conversation.ts        (module [Conversation])
      - voiceboard.ts          (modules [Voiceboard] and [Server])
      - app/page.tsx           (module [Client])
    followed by the properties of the written specification, each one
    settled against these definitions.

    Conventions.  JavaScript values of type [any] are modelled by the
    JSON fragment [json]; a JavaScript number is an integer [Z] (the
    sources handle counts and calendar years); a string is the sequence
    of the bytes of its UTF-8 encoding; a Promise that rejects and a
    [throw] are the [Throw] outcome of the monad [M]; the search
    provider, the language model and the clock are the environment
    [Env] the process runs in. *)

From Stdlib Require Import ZArith List String Ascii Bool Lia DecimalString.
From stdpp Require Import base gmap strings list.
Import ListNotations.
Open Scope Z_scope.
Set Warnings "-register-all".

(* ===================================================================== *)
(** ** JavaScript values *)
(* ===================================================================== *)

Module JS.

(** Values reachable through [any]: what a JSON document can hold.
    Object properties are kept in insertion order. *)
Inductive json : Type :=
| JNull
| JBool (b : bool)
| JNum (n : Z)
| JStr (s : string)
| JArr (items : list json)
| JObj (props : list (string * json)).

(** What a [throw] carries: an [Error] with its message, or any other
    value ([error instanceof Error] tells them apart). *)
Inductive Thrown : Type :=
| ErrorObj (message : string)
| NonError (v : json).

Inductive Outcome (A : Type) : Type :=
| Ok (a : A)
| Throw (e : Thrown).
Arguments Ok {A} a.
Arguments Throw {A} e.

Definition nl : string := String (ascii_of_nat 10) EmptyString.
Definition dquote : string := String (ascii_of_nat 34) EmptyString.
Definition backslash : string := String (ascii_of_nat 92) EmptyString.

(** [String(n)] for an integer number that JavaScript prints in full,
    that is below 10^21 in magnitude; the sources print calendar
    years. *)
Definition numToString (n : Z) : string :=
  NilZero.string_of_int (Z.to_int n).

(** [s.includes(t)]: [t] occurs in [s] as a contiguous substring. *)
Fixpoint includes (s t : string) : bool :=
  String.prefix t s ||
  match s with
  | EmptyString => false
  | String _ s' => includes s' t
  end.

(** Truthiness, as [||] and [if] test it. *)
Definition truthy (v : json) : bool :=
  match v with
  | JNull => false
  | JBool b => b
  | JNum n => negb (n =? 0)
  | JStr s => negb (String.eqb s EmptyString)
  | JArr _ | JObj _ => true
  end.

Definition hexDigit (n : nat) : string :=
  match nth_error
          (list_ascii_of_string "0123456789abcdef") n with
  | Some c => String c EmptyString
  | None => EmptyString
  end.

(** One character of a string inside [JSON.stringify]'s quotes. *)
Definition escapeChar (c : ascii) : string :=
  let n := nat_of_ascii c in
  if Nat.eqb n 34 then backslash +:+ dquote
  else if Nat.eqb n 92 then backslash +:+ backslash
  else if Nat.eqb n 8 then backslash +:+ "b"
  else if Nat.eqb n 9 then backslash +:+ "t"
  else if Nat.eqb n 10 then backslash +:+ "n"
  else if Nat.eqb n 12 then backslash +:+ "f"
  else if Nat.eqb n 13 then backslash +:+ "r"
  else if Nat.ltb n 32
       then backslash +:+ "u00" +:+ hexDigit (Nat.div n 16)
                      +:+ hexDigit (Nat.modulo n 16)
  else String c EmptyString.

Fixpoint escapeString (s : string) : string :=
  match s with
  | EmptyString => EmptyString
  | String c s' => escapeChar c +:+ escapeString s'
  end.

Definition quote (s : string) : string :=
  dquote +:+ escapeString s +:+ dquote.

(** [JSON.stringify(v)] without indentation. *)
Fixpoint stringify (v : json) : string :=
  match v with
  | JNull => "null"
  | JBool true => "true"
  | JBool false => "false"
  | JNum n => numToString n
  | JStr s => quote s
  | JArr items =>
      "[" +:+ String.concat "," (List.map stringify items) +:+ "]"
  | JObj props =>
      "{" +:+ String.concat ","
                (List.map (fun kv => quote (fst kv) +:+ ":" +:+ stringify (snd kv))
                          props)
          +:+ "}"
  end.

(** [String(v)], the conversion [Array.prototype.join] applies to an
    element; [undefined] and [null] elements of an array being joined
    give the empty string. *)
Fixpoint toStr (v : json) : string :=
  match v with
  | JNull => "null"
  | JBool true => "true"
  | JBool false => "false"
  | JNum n => numToString n
  | JStr s => s
  | JArr items =>
      String.concat ","
        (List.map (fun x => match x with JNull => EmptyString | _ => toStr x end)
                  items)
  | JObj _ => "[object Object]"
  end.

(** An element of [arr.join(sep)]; [None] stands for [undefined]. *)
Definition joinItem (v : option json) : string :=
  match v with
  | None | Some JNull => EmptyString
  | Some x => toStr x
  end.

Definition join (sep : string) (items : list (option json)) : string :=
  String.concat sep (List.map joinItem items).

Fixpoint lookupProp (k : string) (props : list (string * json)) : option json :=
  match props with
  | [] => None
  | (k', v) :: rest => if String.eqb k k' then Some v else lookupProp k rest
  end.

(** [v.k] for one of the property names the sources read ([content],
    [snippet], [text], [title]): [undefined] on a primitive or an array,
    a [TypeError] on [null]. *)
Definition getProp (v : json) (k : string) : Outcome (option json) :=
  match v with
  | JNull => Throw (ErrorObj ("Cannot read properties of null (reading '" +:+ k +:+ "')"))
  | JObj props => Ok (lookupProp k props)
  | _ => Ok None
  end.

Definition truthyOpt (v : option json) : bool :=
  match v with
  | None => false
  | Some x => truthy x
  end.

(** A byte of the form 10xxxxxx continues the code point that the
    bytes before it started. *)
Definition isContinuation (c : ascii) : bool :=
  let n := nat_of_ascii c in (128 <=? n)%nat && (n <? 192)%nat.

(** The string goes on with a continuation byte. *)
Definition continues (s : string) : bool :=
  match s with
  | String d _ => isContinuation d
  | EmptyString => false
  end.

(** The code points of a string, each with all its bytes. *)
Fixpoint codePoints (s : string) : list string :=
  match s with
  | EmptyString => []
  | String c s' =>
      match codePoints s' with
      | g :: gs =>
          if continues s' then String c g :: gs
          else String c EmptyString :: g :: gs
      | [] => [String c EmptyString]
      end
  end.

(** The iteration of a string: one string per code point. *)
Definition chars (s : string) : list json := List.map JStr (codePoints s).

(** [...v] inside an array literal: the elements of an array, the
    characters of a string, a [TypeError] for anything not iterable. *)
Definition spread (v : json) : Outcome (list json) :=
  match v with
  | JArr items => Ok items
  | JStr s => Ok (chars s)
  | _ => Throw (ErrorObj "value is not iterable")
  end.

(** [Array.isArray(v) ? v : []]. *)
Definition arrayOrEmpty (v : json) : list json :=
  match v with
  | JArr items => items
  | _ => []
  end.

(** [arr.map(f)] for a callback that can throw. *)
Fixpoint mapOutcome {A B} (f : A -> Outcome B) (l : list A) : Outcome (list B) :=
  match l with
  | [] => Ok []
  | x :: rest =>
      match f x with
      | Throw e => Throw e
      | Ok y =>
          match mapOutcome f rest with
          | Throw e => Throw e
          | Ok ys => Ok (y :: ys)
          end
      end
  end.

End JS.
Export JS.

(* ===================================================================== *)
(** ** Graph state and channels *)
(* ===================================================================== *)

Module State.

Inductive BaseMessage : Type :=
| SystemMessage (content : string)
| HumanMessage (content : string)
| AIMessage (content : string).

(** [ConversationState extends PersonalityState].  [tweets] receives
    the provider's raw result in workflow.ts, so it is kept at type
    [any]; every write to [otherContent] is an array literal. *)
Record ConversationState : Type := mkState {
  personName : string;
  tweets : json;
  otherContent : list json;
  dataSufficient : bool;
  searchAttempts : Z;
  response : string;
  conversationHistory : list BaseMessage;
  currentQuery : string;
  personalityContext : string
}.

(** The partial state a node returns; [None] is an absent key. *)
Record Patch : Type := mkPatch {
  p_tweets : option json;
  p_otherContent : option (list json);
  p_dataSufficient : option bool;
  p_searchAttempts : option Z;
  p_response : option string;
  p_conversationHistory : option (list BaseMessage);
  p_personalityContext : option string
}.

(** The channel reducer [(x, y) => y ?? x]. *)
Definition coalesce {A} (x : A) (y : option A) : A :=
  match y with
  | Some v => v
  | None => x
  end.

(** The same reducer on an [any] channel, where [y] can also be [null]. *)
Definition coalesceAny (x : json) (y : option json) : json :=
  match y with
  | Some JNull | None => x
  | Some v => v
  end.

(** [conversationGraphState]: every channel keeps the old value unless
    the node wrote a new one. *)
Definition merge (st : ConversationState) (p : Patch) : ConversationState :=
  {| personName := personName st;
     tweets := coalesceAny (tweets st) (p_tweets p);
     otherContent := coalesce (otherContent st) (p_otherContent p);
     dataSufficient := coalesce (dataSufficient st) (p_dataSufficient p);
     searchAttempts := coalesce (searchAttempts st) (p_searchAttempts p);
     response := coalesce (response st) (p_response p);
     conversationHistory :=
       coalesce (conversationHistory st) (p_conversationHistory p);
     currentQuery := currentQuery st;
     personalityContext :=
       coalesce (personalityContext st) (p_personalityContext p) |}.

End State.
Export State.

(* ===================================================================== *)
(** ** The environment and the effect monad *)
(* ===================================================================== *)

Module Effects.

(** [llm.invoke] is called with a prompt string in the hardened
    workflow and with a message array in conversation.ts. *)
Inductive LlmInput : Type :=
| Prompt (text : string)
| Messages (msgs : list BaseMessage).

(** What the process cannot control.  The [n]-th call (counted from 0)
    of each provider answers or throws; the clock gives the calendar
    year, the ISO date one year back and the time stamp;
    [primitiveThrown v] is the message of the [TypeError] with which
    the graph library fails when a node throws the primitive [v]. *)
Record Env : Type := mkEnv {
  tavily : nat -> string -> Outcome json;
  llm : nat -> LlmInput -> Outcome string;
  fullYear : Z;
  oneYearAgoDate : string;
  timestamp : Z;
  primitiveThrown : json -> string
}.

Inductive NodeName : Type := searchTweets | evaluate | searchMore | generate.

(** A graph node is entered with a state and, unless it throws, left
    with the state its patch was merged into. *)
Inductive Step : Type :=
| Enter (n : NodeName) (st : ConversationState)
| Leave (n : NodeName) (st : ConversationState).

(** The observable history of the process: the queries sent to the
    search provider and the inputs sent to the language model, oldest
    first, and the steps of the graph runs. *)
Record World : Type := mkWorld {
  searches : list string;
  llmCalls : list LlmInput;
  steps : list Step
}.

Definition emptyWorld : World := mkWorld [] [] [].

Definition M (A : Type) : Type := Env -> World -> Outcome A * World.

Definition ret {A} (a : A) : M A := fun _ w => (Ok a, w).

Definition throw {A} (e : Thrown) : M A := fun _ w => (Throw e, w).

Definition bind {A B} (m : M A) (k : A -> M B) : M B :=
  fun env w =>
    match m env w with
    | (Ok a, w') => k a env w'
    | (Throw e, w') => (Throw e, w')
    end.

(** [try { m } catch (error) { h error }]. *)
Definition tryCatch {A} (m : M A) (h : Thrown -> M A) : M A :=
  fun env w =>
    match m env w with
    | (Ok a, w') => (Ok a, w')
    | (Throw e, w') => h e env w'
    end.

Definition lift {A} (o : Outcome A) : M A := fun _ w => (o, w).

Definition ask : M Env := fun env w => (Ok env, w).

(** [await tavily.invoke(query)]: one outbound search call. *)
Definition tavilyInvoke (query : string) : M json :=
  fun env w =>
    (tavily env (List.length (searches w)) query,
     mkWorld (searches w ++ [query]) (llmCalls w) (steps w)).

(** [await llm.invoke(input)]: one language-model call. *)
Definition llmInvoke (input : LlmInput) : M string :=
  fun env w =>
    (llm env (List.length (llmCalls w)) input,
     mkWorld (searches w) (llmCalls w ++ [input]) (steps w)).

Definition addStep (w : World) (s : Step) : World :=
  mkWorld (searches w) (llmCalls w) (steps w ++ [s]).

Definition record (s : Step) : M unit :=
  fun _ w => (Ok tt, addStep w s).

End Effects.
Export Effects.

Notation "x <- m ;; k" := (bind m (fun x => k))
  (at level 100, m at next level, right associativity).
Notation "m ;;; k" := (bind m (fun _ => k))
  (at level 100, right associativity).

(* ===================================================================== *)
(** ** workflow.ts *)
(* ===================================================================== *)

Module Workflow.

(** Node 1: search recent tweets.  The provider's result is stored as it
    comes and a provider failure is not caught. *)
Definition searchRecentTweets (state : ConversationState) : M Patch :=
  env <- ask ;;
  let dateString := oneYearAgoDate env in
  let query := personName state +:+ " tweets after:" +:+ dateString in
  results <- tavilyInvoke query ;;
  ret (mkPatch (Some results) None None
               (Some (searchAttempts state + 1)) None None None).

(** The callback of [tweets.some]. *)
Definition mentionsRecentYear (currentYear : Z) (t : json) : bool :=
  let tweetStr := stringify t in
  includes tweetStr (numToString currentYear) ||
  includes tweetStr (numToString (currentYear - 1)).

(** Node 2: evaluate data sufficiency.  [state.tweets || []] keeps a
    truthy value whatever it is; [.some] exists on arrays only. *)
Definition evaluateData (state : ConversationState) : M Patch :=
  let tweets := if truthy (tweets state) then tweets state else JArr [] in
  let otherContent := otherContent state in
  env <- ask ;;
  let currentYear := fullYear env in
  match tweets with
  | JArr ts =>
      let totalContent :=
        Z.of_nat (List.length ts) + Z.of_nat (List.length otherContent) in
      let hasRecent := existsb (mentionsRecentYear currentYear) ts in
      let sufficient := (totalContent >=? 15) && hasRecent in
      ret (mkPatch None None (Some sufficient) None None None None)
  | _ => throw (ErrorObj "tweets.some is not a function")
  end.

Definition additionalQuery (state : ConversationState) : string :=
  if searchAttempts state =? 1
  then personName state +:+ " interview podcast 2024"
  else if searchAttempts state =? 2
  then personName state +:+ " speech quotes recent"
  else personName state +:+ " opinions views".

(** Node 3: search additional sources; neither the provider failure nor
    the spread of a result that is not iterable is caught. *)
Definition searchAdditionalSources (state : ConversationState) : M Patch :=
  let query := additionalQuery state in
  results <- tavilyInvoke query ;;
  items <- lift (spread results) ;;
  ret (mkPatch None (Some (otherContent state ++ items)) None
               (Some (searchAttempts state + 1)) None None None).

(** The conditional routing after [evaluate]. *)
Definition shouldSearchMore (state : ConversationState) : string :=
  if dataSufficient state then "generate"
  else if searchAttempts state <? 4 then "searchMore"
  else "generate".

End Workflow.

(* ===================================================================== *)
(** ** workflow.ts, hardened revision *)
(* ===================================================================== *)

Module WorkflowSafe.

(** Node 1: search recent tweets, inside try/catch. *)
Definition searchRecentTweets (state : ConversationState) : M Patch :=
  env <- ask ;;
  let dateString := oneYearAgoDate env in
  let query := personName state +:+ " tweets after:" +:+ dateString in
  tryCatch
    (results <- tavilyInvoke query ;;
     ret (mkPatch (Some (JArr (arrayOrEmpty results))) None None
                  (Some (searchAttempts state + 1)) None None None))
    (fun _ =>
     ret (mkPatch (Some (JArr [])) None None
                  (Some (searchAttempts state + 1)) None None None)).

(** Node 2: evaluate data sufficiency. *)
Definition evaluateData (state : ConversationState) : M Patch :=
  let tweets := arrayOrEmpty (tweets state) in
  let otherContent := otherContent state in
  let totalContent :=
    Z.of_nat (List.length tweets) + Z.of_nat (List.length otherContent) in
  env <- ask ;;
  let currentYear := fullYear env in
  let hasRecent := existsb (Workflow.mentionsRecentYear currentYear) tweets in
  let sufficient := (totalContent >=? 15) && hasRecent in
  ret (mkPatch None None (Some sufficient) None None None None).

(** Node 3: search additional sources, inside try/catch. *)
Definition searchAdditionalSources (state : ConversationState) : M Patch :=
  let query := Workflow.additionalQuery state in
  tryCatch
    (results <- tavilyInvoke query ;;
     let currentOtherContent := otherContent state in
     items <- lift (spread results) ;;
     ret (mkPatch None (Some (currentOtherContent ++ items)) None
                  (Some (searchAttempts state + 1)) None None None))
    (fun _ =>
     ret (mkPatch None (Some (otherContent state)) None
                  (Some (searchAttempts state + 1)) None None None)).

(** The callback of [.map] in [generateResponse]. *)
Definition summaryItem (item : json) : Outcome (option json) :=
  match getProp item "content" with
  | Throw e => Throw e
  | Ok c =>
      if truthyOpt c then Ok c
      else match getProp item "snippet" with
           | Throw e => Throw e
           | Ok s =>
               if truthyOpt s then Ok s
               else match getProp item "title" with
                    | Throw e => Throw e
                    | Ok t =>
                        if truthyOpt t then Ok t
                        else Ok (Some (JStr (stringify item)))
                    end
           end
  end.

Definition fallbackResponse (state : ConversationState) : string :=
  "I'm sorry, I'm having trouble generating a response right now. This is "
  +:+ personName state +:+ " speaking.".

(** Node 4: generate a response with the language model; only the model
    call is inside the try. *)
Definition generateResponse (state : ConversationState)
    (currentQuery : option string) : M Patch :=
  ts <- lift (spread (tweets state)) ;;
  let allContent := ts ++ otherContent state in
  summaries <- lift (mapOutcome summaryItem (take 10 allContent)) ;;
  let contentSummary := join (nl +:+ nl) summaries in
  let query :=
    match currentQuery with
    | Some q => if String.eqb q EmptyString then "Tell me about yourself" else q
    | None => "Tell me about yourself"
    end in
  let prompt :=
    "You are " +:+ personName state
    +:+ ". Based on the following content about you, respond in your authentic voice and style:"
    +:+ nl +:+ nl +:+ contentSummary +:+ nl +:+ nl
    +:+ "User asks: " +:+ dquote +:+ query +:+ dquote +:+ nl +:+ nl
    +:+ "Respond as " +:+ personName state
    +:+ " would, using your typical communication style, vocabulary, and personality traits. Be conversational and engaging." in
  tryCatch
    (content <- llmInvoke (Prompt prompt) ;;
     ret (mkPatch None None None None (Some content) None None))
    (fun _ =>
     ret (mkPatch None None None None (Some (fallbackResponse state)) None None)).

(** The conditional routing after [evaluate]. *)
Definition shouldSearchMore (state : ConversationState) : string :=
  if dataSufficient state then "generate"
  else if searchAttempts state <? 4 then "searchMore"
  else "generate".

End WorkflowSafe.

(* ===================================================================== *)
(** ** conversation.ts *)
(* ===================================================================== *)

Module Conversation.

(** [c.content || c.snippet || c.text]. *)
Definition contentOf (c : json) : Outcome (option json) :=
  match getProp c "content" with
  | Throw e => Throw e
  | Ok a =>
      if truthyOpt a then Ok a
      else match getProp c "snippet" with
           | Throw e => Throw e
           | Ok b => if truthyOpt b then Ok b else getProp c "text"
           end
  end.

Definition indent : string := "     ".

Definition systemPrompt (name personalityContext : string) : string :=
  "You are mimicking the speaking style and personality of " +:+ name +:+ ". " +:+ nl
  +:+ indent +:+ nl
  +:+ indent +:+ "Based on these examples of their speech and tweets:" +:+ nl
  +:+ indent +:+ personalityContext +:+ nl
  +:+ indent +:+ nl
  +:+ indent +:+ "Important guidelines:" +:+ nl
  +:+ indent +:+ "- Match their vocabulary, tone, and speaking patterns" +:+ nl
  +:+ indent +:+ "- Use similar phrases and expressions they commonly use" +:+ nl
  +:+ indent +:+ "- Maintain their perspective on topics" +:+ nl
  +:+ indent +:+ "- Keep their energy level and communication style" +:+ nl
  +:+ indent +:+ "- If they use specific catchphrases or signatures, include them naturally" +:+ nl
  +:+ indent +:+ nl
  +:+ indent +:+ "Stay in character throughout the conversation.".

(** The generate node that maintains the conversation.  The model call
    is not inside a try: when it throws, no patch is returned.  The
    construction of the [ChatOpenAI] client is part of the model call. *)
Definition generateConversationalResponse (state : ConversationState) : M Patch :=
  ts <- lift (spread (tweets state)) ;;
  let allContent := ts ++ otherContent state in
  picked <- lift (mapOutcome contentOf (take 15 allContent)) ;;
  let personalityContext := join (nl +:+ nl) picked in
  let systemMessage :=
    SystemMessage (systemPrompt (personName state) personalityContext) in
  let messages :=
    systemMessage :: conversationHistory state
      ++ [HumanMessage (currentQuery state)] in
  aiResponse <- llmInvoke (Messages messages) ;;
  let updatedHistory :=
    conversationHistory state
      ++ [HumanMessage (currentQuery state); AIMessage aiResponse] in
  ret (mkPatch None None None None (Some aiResponse) (Some updatedHistory)
               (Some personalityContext)).

End Conversation.


(* ===================================================================== *)
(** ** The compiled graph *)
(* ===================================================================== *)

Module Graph.

(** What [StateGraph] is given: [addNode], [addEdge] and
    [addConditionalEdges] (as the successor of a node in a state; [None]
    is the end of the run) and [setEntryPoint]. *)
Record StateGraph : Type := mkGraph {
  nodes : NodeName -> option (ConversationState -> M Patch);
  successor : NodeName -> ConversationState -> option NodeName;
  entryPoint : NodeName
}.

(** The number of steps after which a compiled graph gives up. *)
Definition recursionLimit : nat := 25.

Definition recursionError : Thrown :=
  ErrorObj "Recursion limit of 25 reached without hitting a stop condition.".

(** The channels start from their defaults and take the input through
    the reducer; only an [any] channel can hold [null]. *)
Definition seed (input : ConversationState) : ConversationState :=
  {| personName := personName input;
     tweets := coalesceAny (JArr []) (Some (tweets input));
     otherContent := otherContent input;
     dataSufficient := dataSufficient input;
     searchAttempts := searchAttempts input;
     response := response input;
     conversationHistory := conversationHistory input;
     currentQuery := currentQuery input;
     personalityContext := personalityContext input |}.

(** What the caller of [invoke] catches when a node throws [e]: an
    [Error], or any other object, as it was thrown; for a primitive,
    the [TypeError] of the library. *)
Definition rethrown (env : Env) (e : Thrown) : Thrown :=
  match e with
  | ErrorObj _ => e
  | NonError (JObj _) => e
  | NonError (JArr _) => e
  | NonError v => ErrorObj (primitiveThrown env v)
  end.

(** A node function run as one step of the graph. *)
Definition runNode (f : ConversationState -> M Patch) (st : ConversationState)
    : M Patch :=
  fun env w =>
    match f st env w with
    | (Ok p, w') => (Ok p, w')
    | (Throw e, w') => (Throw (rethrown env e), w')
    end.

(** One node at a time: run it, merge its patch, follow the edge.
    [fuel] is the number of steps left.  The step that would find the
    run finished counts as well: a run is given up after its
    [recursionLimit]-th node even when no edge leaves that node. *)
Fixpoint run (g : StateGraph) (fuel : nat) (n : NodeName)
    (st : ConversationState) : M ConversationState :=
  match fuel with
  | O => throw recursionError
  | S fuel' =>
      match nodes g n with
      | None => throw (ErrorObj "Node not found")
      | Some f =>
          record (Enter n st) ;;;
          p <- runNode f st ;;
          let st' := merge st p in
          record (Leave n st') ;;;
          match fuel' with
          | O => throw recursionError
          | S _ =>
              match successor g n st' with
              | Some n' => run g fuel' n' st'
              | None => ret st'
              end
          end
      end
  end.

(** [compiled.invoke(input)]. *)
Definition invoke (g : StateGraph) (input : ConversationState) : M ConversationState :=
  run g recursionLimit (entryPoint g) (seed input).

End Graph.
Export Graph.

(* ===================================================================== *)
(** ** voiceboard.ts: the Voiceboard class *)
(* ===================================================================== *)

Module Voiceboard.

(** The fields of the class; [app] is the compiled graph the
    constructor stores. *)
Record Voiceboard : Type := mkVoiceboard {
  personName : string;
  app : StateGraph;
  state : ConversationState;
  initialized : bool
}.

(** The path map of [addConditionalEdges]. *)
Definition pathMap (key : string) : option NodeName :=
  if String.eqb key "searchMore" then Some searchMore
  else if String.eqb key "generate" then Some generate
  else None.

(** The calls of [buildWorkflow()] on the graph under construction:
    four nodes, the edges searchTweets -> evaluate and
    searchMore -> evaluate, the conditional edge out of evaluate, the
    entry point; generate has no outgoing edge. *)
Definition wire (search evaluateNode more generateNode : ConversationState -> M Patch)
    (router : ConversationState -> string) : StateGraph :=
  {| nodes := fun n =>
       Some match n with
            | searchTweets => search
            | evaluate => evaluateNode
            | searchMore => more
            | generate => generateNode
            end;
     successor := fun n st =>
       match n with
       | searchTweets => Some evaluate
       | evaluate => pathMap (router st)
       | searchMore => Some evaluate
       | generate => None
       end;
     entryPoint := searchTweets |}.

(** The identifier [shouldSearchMore] as voiceboard.ts evaluates it.
    The module imports [searchRecentTweets], [evaluateData] and
    [searchAdditionalSources] from ./workflow and declares no
    [shouldSearchMore]; workflow.ts declares the function without
    exporting it.  Evaluating the identifier is a [ReferenceError]. *)
Definition shouldSearchMore : Outcome (ConversationState -> string) :=
  Throw (ErrorObj "shouldSearchMore is not defined").

(** [buildWorkflow()]: the arguments of [addConditionalEdges] are
    evaluated before the call, the router among them. *)
Definition buildWorkflow : Outcome StateGraph :=
  match shouldSearchMore with
  | Throw e => Throw e
  | Ok router =>
      Ok (wire Workflow.searchRecentTweets Workflow.evaluateData
               Workflow.searchAdditionalSources
               Conversation.generateConversationalResponse
               router)
  end.

(** The workflow [chat] builds for one turn: the generate node alone. *)
Definition chatWorkflow : StateGraph :=
  {| nodes := fun n =>
       match n with
       | generate => Some Conversation.generateConversationalResponse
       | _ => None
       end;
     successor := fun _ _ => None;
     entryPoint := generate |}.

(** The state the constructor assigns to [this.state]. *)
Definition initialState (name : string) : ConversationState :=
  {| State.personName := name;
     tweets := JArr [];
     otherContent := [];
     dataSufficient := false;
     searchAttempts := 0;
     response := "";
     conversationHistory := [];
     currentQuery := "";
     personalityContext := "" |}.

(** [new Voiceboard(personName)]: the last statement of the constructor
    is [this.app = this.buildWorkflow()]. *)
Definition new (name : string) : Outcome Voiceboard :=
  match buildWorkflow with
  | Throw e => Throw e
  | Ok compiled =>
      Ok {| personName := name;
            app := compiled;
            state := initialState name;
            initialized := false |}
  end.

(** A method: it can answer or throw, and leaves the object as it
    mutated it either way. *)
Definition Method (A : Type) : Type :=
  Voiceboard -> Env -> World -> Outcome A * Voiceboard * World.

(** [initialize()].  The log line after the run reads
    [this.state.tweets.length]. *)
Definition initialize : Method unit :=
  fun this env w =>
    if negb (initialized this) then
      match invoke (app this) (state this) env w with
      | (Throw e, w') => (Throw e, this, w')
      | (Ok st', w') =>
          let this' := mkVoiceboard (personName this) (app this) st' true in
          match tweets st' with
          | JNull =>
              (Throw (ErrorObj "Cannot read properties of null (reading 'length')"),
               this', w')
          | _ => (Ok tt, this', w')
          end
      end
    else (Ok tt, this, w).

Definition setCurrentQuery (message : string) (st : ConversationState)
    : ConversationState :=
  {| State.personName := State.personName st;
     tweets := tweets st;
     otherContent := otherContent st;
     dataSufficient := dataSufficient st;
     searchAttempts := searchAttempts st;
     response := response st;
     conversationHistory := conversationHistory st;
     currentQuery := message;
     personalityContext := personalityContext st |}.

(** [chat(message)]. *)
Definition chat (message : string) : Method string :=
  fun this env w =>
    let '(r, this1, w1) :=
      if negb (initialized this) then initialize this env w
      else (Ok tt, this, w) in
    match r with
    | Throw e => (Throw e, this1, w1)
    | Ok _ =>
        let this2 :=
          mkVoiceboard (personName this1) (app this1)
                       (setCurrentQuery message (state this1))
                       (initialized this1) in
        match invoke chatWorkflow (state this2) env w1 with
        | (Throw e, w2) => (Throw e, this2, w2)
        | (Ok st', w2) =>
            (Ok (response st'),
             mkVoiceboard (personName this2) (app this2) st' (initialized this2), w2)
        end
    end.

(** [getHistory()]. *)
Definition getHistory (this : Voiceboard) : list BaseMessage :=
  conversationHistory (state this).

(** [clearConversation()]. *)
Definition clearConversation (this : Voiceboard) : Voiceboard :=
  let st := state this in
  mkVoiceboard (personName this) (app this)
    {| State.personName := State.personName st;
       tweets := tweets st;
       otherContent := otherContent st;
       dataSufficient := dataSufficient st;
       searchAttempts := searchAttempts st;
       response := response st;
       conversationHistory := [];
       currentQuery := currentQuery st;
       personalityContext := personalityContext st |}
    (initialized this).

(** The assignments of [refreshPersonality()] before it initializes. *)
Definition forgetPersonality (this : Voiceboard) : Voiceboard :=
  let st := state this in
  mkVoiceboard (personName this) (app this)
    {| State.personName := State.personName st;
       tweets := JArr [];
       otherContent := [];
       dataSufficient := dataSufficient st;
       searchAttempts := 0;
       response := response st;
       conversationHistory := conversationHistory st;
       currentQuery := currentQuery st;
       personalityContext := personalityContext st |}
    false.

(** [refreshPersonality()]. *)
Definition refreshPersonality : Method unit :=
  fun this env w => initialize (forgetPersonality this) env w.

End Voiceboard.

(* ===================================================================== *)
(** ** voiceboard.ts: the server *)
(* ===================================================================== *)

Module Server.

Import Voiceboard.

(** [ServerToClientEvents]. *)
Inductive ServerEvent : Type :=
| status (message : string)
| voiceboard_ready (personName : string)
| response (message : string) (timestamp : Z)
| typing (isTyping : bool)
| error (message : string)
| conversation_cleared.

Record HttpResponse : Type := mkResponse {
  statusCode : Z;
  body : json
}.

(** [!field] on a request field that may be missing. *)
Definition missing (field : option string) : bool :=
  match field with
  | None => true
  | Some s => String.eqb s EmptyString
  end.

Definition text (field : option string) : string :=
  match field with
  | Some s => s
  | None => EmptyString
  end.

(** [error instanceof Error ? error.message : fallback]. *)
Definition messageOf (e : Thrown) (fallback : string) : string :=
  match e with
  | ErrorObj m => m
  | NonError _ => fallback
  end.

(** [POST /api/voiceboard/create]; the map is
    [const voiceboards = new Map<string, Voiceboard>()]. *)
Definition postCreate (personName sessionId : option string)
    (voiceboards : gmap string Voiceboard) (env : Env) (w : World)
    : HttpResponse * gmap string Voiceboard * World :=
  if missing personName || missing sessionId then
    (mkResponse 400 (JObj [("error", JStr "personName and sessionId are required")]),
     voiceboards, w)
  else
    match new (text personName) with
    | Throw e =>
        (mkResponse 500 (JObj [("error", JStr (messageOf e "Unknown error occurred"))]),
         voiceboards, w)
    | Ok voiceboard =>
        match initialize voiceboard env w with
        | (Throw e, _, w') =>
            (mkResponse 500
               (JObj [("error", JStr (messageOf e "Unknown error occurred"))]),
             voiceboards, w')
        | (Ok _, voiceboard', w') =>
            (mkResponse 200
               (JObj [("success", JBool true);
                      ("message", JStr ("Voiceboard created for " +:+ text personName));
                      ("sessionId", JStr (text sessionId))]),
             <[text sessionId := voiceboard']> voiceboards, w')
        end
    end.

(** [POST /api/voiceboard/chat]. *)
Definition postChat (sessionId message : option string)
    (voiceboards : gmap string Voiceboard) (env : Env) (w : World)
    : HttpResponse * gmap string Voiceboard * World :=
  if missing sessionId || missing message then
    (mkResponse 400 (JObj [("error", JStr "sessionId and message are required")]),
     voiceboards, w)
  else
    match voiceboards !! text sessionId with
    | None =>
        (mkResponse 404
           (JObj [("error", JStr "Voiceboard not found. Please create a voiceboard first.")]),
         voiceboards, w)
    | Some voiceboard =>
        match chat (text message) voiceboard env w with
        | (Ok reply, voiceboard', w') =>
            (mkResponse 200 (JObj [("response", JStr reply)]),
             <[text sessionId := voiceboard']> voiceboards, w')
        | (Throw e, voiceboard', w') =>
            (mkResponse 500 (JObj [("error", JStr (messageOf e "Unknown error occurred"))]),
             <[text sessionId := voiceboard']> voiceboards, w')
        end
    end.

(** [DELETE /api/voiceboard/:sessionId]. *)
Definition deleteVoiceboard (sessionId : string)
    (voiceboards : gmap string Voiceboard)
    : HttpResponse * gmap string Voiceboard :=
  match voiceboards !! sessionId with
  | Some _ =>
      (mkResponse 200
         (JObj [("success", JBool true);
                ("message", JStr "Voiceboard deleted successfully")]),
       delete sessionId voiceboards)
  | None =>
      (mkResponse 404 (JObj [("error", JStr "Voiceboard not found")]), voiceboards)
  end.

(** What a socket handler leaves behind: the events it emitted, oldest
    first, the registry, [socket.data.personName] and the world. *)
Record Handled : Type := mkHandled {
  emitted : list ServerEvent;
  registry : gmap string Voiceboard;
  dataPersonName : option string;
  world : World
}.

(** The argument of a socket event that carries one field: [None] when
    the client emitted the event without a payload, otherwise the field,
    itself possibly missing. *)
Definition Payload : Type := option (option string).

(** [const { field } = data]. *)
Definition destructure (field : string) (data : Payload) : Outcome (option string) :=
  match data with
  | Some value => Ok value
  | None =>
      Throw (ErrorObj ("Cannot destructure property '" +:+ field
                       +:+ "' of 'data' as it is undefined."))
  end.

(** [socket.on('create-voiceboard')]. *)
Definition onCreateVoiceboard (socketId : string) (data : Payload)
    (dataName : option string)
    (voiceboards : gmap string Voiceboard) (env : Env) (w : World) : Handled :=
  match destructure "personName" data with
  | Throw e =>
      mkHandled [error (messageOf e "Failed to create voiceboard")]
                voiceboards dataName w
  | Ok personName =>
      if missing personName then
        mkHandled [error "Person name is required"] voiceboards dataName w
      else
        match new (text personName) with
        | Throw e =>
            mkHandled [error (messageOf e "Failed to create voiceboard")]
                      voiceboards dataName w
        | Ok voiceboard =>
            match initialize voiceboard env w with
            | (Throw e, _, w') =>
                mkHandled [status "Initializing voiceboard...";
                           error (messageOf e "Failed to create voiceboard")]
                          voiceboards dataName w'
            | (Ok _, voiceboard', w') =>
                mkHandled [status "Initializing voiceboard...";
                           voiceboard_ready (text personName)]
                          (<[socketId := voiceboard']> voiceboards)
                          (Some (text personName)) w'
            end
        end
  end.

(** [socket.on('chat')]. *)
Definition onChat (socketId : string) (data : Payload)
    (dataName : option string)
    (voiceboards : gmap string Voiceboard) (env : Env) (w : World) : Handled :=
  match destructure "message" data with
  | Throw e =>
      mkHandled [error (messageOf e "Failed to process message"); typing false]
                voiceboards dataName w
  | Ok message =>
      if missing message then
        mkHandled [error "Message cannot be empty"] voiceboards dataName w
      else
        match voiceboards !! socketId with
        | None =>
            mkHandled [error "Please create a voiceboard first"] voiceboards dataName w
        | Some voiceboard =>
            match chat (text message) voiceboard env w with
            | (Ok reply, voiceboard', w') =>
                mkHandled [typing true; response reply (timestamp env); typing false]
                          (<[socketId := voiceboard']> voiceboards) dataName w'
            | (Throw e, voiceboard', w') =>
                mkHandled [typing true;
                           error (messageOf e "Failed to process message");
                           typing false]
                          (<[socketId := voiceboard']> voiceboards) dataName w'
            end
        end
  end.

(** [socket.on('clear-conversation')]. *)
Definition onClearConversation (socketId : string) (dataName : option string)
    (voiceboards : gmap string Voiceboard) (w : World) : Handled :=
  match voiceboards !! socketId with
  | Some voiceboard =>
      mkHandled [conversation_cleared]
                (<[socketId := clearConversation voiceboard]> voiceboards)
                dataName w
  | None =>
      mkHandled [error "No active voiceboard found"] voiceboards dataName w
  end.

(** [socket.on('disconnect')]. *)
Definition onDisconnect (socketId : string)
    (voiceboards : gmap string Voiceboard) : gmap string Voiceboard :=
  delete socketId voiceboards.

End Server.

(* ===================================================================== *)
(** ** app/page.tsx: the client of the socket events *)
(* ===================================================================== *)

Module Client.

Inductive MessageType : Type := user | ai | system | error.

Record Message : Type := mkMessage {
  type : MessageType;
  content : string;
  timestamp : Z
}.

Record Clone : Type := mkClone {
  name : string;
  emoji : string;
  personality : string;
  score : Z;
  remix : option string
}.

(** The state hooks of [Page]. *)
Record Page : Type := mkPage {
  messages : list Message;
  inputMessage : string;
  selectedClone : option Clone;
  customName : string;
  isConnected : bool;
  isTyping : bool;
  isInitializing : bool
}.

Definition initial : Page := mkPage [] "" None "" false false false.

Definition setMessages (f : list Message -> list Message) (p : Page) : Page :=
  mkPage (f (messages p)) (inputMessage p) (selectedClone p) (customName p)
         (isConnected p) (isTyping p) (isInitializing p).

Definition setIsConnected (b : bool) (p : Page) : Page :=
  mkPage (messages p) (inputMessage p) (selectedClone p) (customName p)
         b (isTyping p) (isInitializing p).

Definition setIsTyping (b : bool) (p : Page) : Page :=
  mkPage (messages p) (inputMessage p) (selectedClone p) (customName p)
         (isConnected p) b (isInitializing p).

Definition setIsInitializing (b : bool) (p : Page) : Page :=
  mkPage (messages p) (inputMessage p) (selectedClone p) (customName p)
         (isConnected p) (isTyping p) b.

(** [socket.on('connect')]; [now] is what the client's clock shows. *)
Definition onConnect (now : Z) (p : Page) : Page :=
  setMessages
    (fun _ => [mkMessage system
                 "Connected to Clone Council! Select a clone or enter a name to start chatting."
                 now])
    (setIsConnected true p).

(** [socket.on('disconnect')]. *)
Definition onConnectionLost (now : Z) (p : Page) : Page :=
  setMessages
    (fun prev => prev ++ [mkMessage error "Connection lost. Please refresh the page." now])
    (setIsConnected false p).

(** [socket.on('voiceboard-ready')]. *)
Definition onVoiceboardReady (now : Z) (personName : string) (p : Page) : Page :=
  setMessages
    (fun prev =>
       prev ++ [mkMessage system
                  ("Voiceboard initialized for " +:+ personName +:+ ". Start chatting!")
                  now])
    (setIsInitializing false p).

(** [socket.on('response')]: the message keeps the server's time stamp. *)
Definition onResponse (message : string) (stamp : Z) (p : Page) : Page :=
  setIsTyping false
    (setMessages (fun prev => prev ++ [mkMessage ai message stamp]) p).

(** [socket.on('typing')]. *)
Definition onTyping (typing : bool) (p : Page) : Page := setIsTyping typing p.

(** [socket.on('status')]. *)
Definition onStatus (now : Z) (message : string) (p : Page) : Page :=
  setMessages (fun prev => prev ++ [mkMessage system message now]) p.

(** [socket.on('error')]. *)
Definition onError (now : Z) (message : string) (p : Page) : Page :=
  setIsInitializing false
    (setIsTyping false
       (setMessages (fun prev => prev ++ [mkMessage error message now]) p)).

(** The handler registered for a server event; none is registered for
    conversation-cleared. *)
Definition receive (now : Z) (ev : Server.ServerEvent) (p : Page) : Page :=
  match ev with
  | Server.status message => onStatus now message p
  | Server.voiceboard_ready personName => onVoiceboardReady now personName p
  | Server.response message stamp => onResponse message stamp p
  | Server.typing b => onTyping b p
  | Server.error message => onError now message p
  | Server.conversation_cleared => p
  end.

(** The events of one server handler arriving in order; the [i]-th
    arrival is handled when the client's clock shows [clock i]. *)
Fixpoint deliver (clock : nat -> Z) (i : nat) (events : list Server.ServerEvent)
    (p : Page) : Page :=
  match events with
  | [] => p
  | ev :: rest => deliver clock (S i) rest (receive (clock i) ev p)
  end.

(** [handleClearConversation]: what it emits is the clear-conversation
    event; the page shows the one system message. *)
Definition handleClearConversation (now : Z) (p : Page) : Page :=
  setMessages (fun _ => [mkMessage system "Conversation cleared" now]) p.

End Client.

(* ===================================================================== *)
(** ** The specification's own wording, and observers *)
(* ===================================================================== *)

Module Spec.

(** The decision rule as the specification words it: the total snippet
    count is at least 15 and at least one snippet, of either kind,
    mentions the current or the previous year. *)
Definition sufficient (year : Z) (snippets : list json) : bool :=
  (Z.of_nat (List.length snippets) >=? 15)
  && existsb (Workflow.mentionsRecentYear year) snippets.

End Spec.

(** The patch [{ dataSufficient: b }]. *)
Definition decision (b : bool) : Patch :=
  mkPatch None None (Some b) None None None None.

(** [t] occurs in [s]. *)
Definition occursIn (t s : string) : Prop :=
  exists pre post : string, s = pre +:+ t +:+ post.

(** The serialisation of [t] mentions [year] or the year before. *)
Definition mentions (year : Z) (t : json) : Prop :=
  occursIn (numToString year) (stringify t)
  \/ occursIn (numToString (year - 1)) (stringify t).


(** Whether the typing indicator is on after a list of events. *)
Definition typingOn (events : list Server.ServerEvent) : bool :=
  fold_left (fun on ev => match ev with Server.typing b => b | _ => on end)
            events false.

(** The calls a holder of a Voiceboard can make without starting the
    collection again. *)
Inductive Call : Type :=
| callInitialize
| callChat (message : string)
| callClear.

(** One call, whatever it answers. *)
Definition perform (c : Call) (vb : Voiceboard.Voiceboard) (env : Env)
    (w : World) : Voiceboard.Voiceboard * World :=
  match c with
  | callInitialize =>
      let '(_, vb', w') := Voiceboard.initialize vb env w in (vb', w')
  | callChat m =>
      let '(_, vb', w') := Voiceboard.chat m vb env w in (vb', w')
  | callClear => (Voiceboard.clearConversation vb, w)
  end.

Fixpoint performAll (cs : list Call) (vb : Voiceboard.Voiceboard) (env : Env)
    (w : World) : Voiceboard.Voiceboard * World :=
  match cs with
  | [] => (vb, w)
  | c :: rest =>
      let '(vb', w') := perform c vb env w in performAll rest vb' env w'
  end.

(** A history made of user turns each followed by a reply. *)
Fixpoint alternating (h : list BaseMessage) : bool :=
  match h with
  | [] => true
  | HumanMessage _ :: AIMessage _ :: rest => alternating rest
  | _ => false
  end.

(** The personality context the generate node builds from a state: the
    first 15 collected items, each by its content, snippet or text. *)
Definition personalityContextOf (st : ConversationState) : Outcome string :=
  match spread (tweets st) with
  | Throw e => Throw e
  | Ok ts =>
      match mapOutcome Conversation.contentOf (take 15 (ts ++ otherContent st)) with
      | Throw e => Throw e
      | Ok picked => Ok (join (nl +:+ nl) picked)
      end
  end.

(** The message array the generate node sends for a state. *)
Definition modelInput (st : ConversationState) (context : string) : LlmInput :=
  Messages (SystemMessage (Conversation.systemPrompt (personName st) context)
            :: conversationHistory st ++ [HumanMessage (currentQuery st)]).

Definition addCall (w : World) (input : LlmInput) : World :=
  mkWorld (searches w) (llmCalls w ++ [input]) (steps w).

Definition addSearch (w : World) (query : string) : World :=
  mkWorld (searches w ++ [query]) (llmCalls w) (steps w).

(** Every Voiceboard in the registry has completed its initialization. *)
Definition allInitialized (voiceboards : gmap string Voiceboard.Voiceboard) : Prop :=
  forall (sid : string) (vb : Voiceboard.Voiceboard),
    voiceboards !! sid = Some vb -> Voiceboard.initialized vb = true.

(** Scenarios: a provider that finds nothing and a model that answers;
    a provider that is down; a model that is down. *)
Definition recentItem : json :=
  JObj [("title", JStr "Ada on engines");
        ("url", JStr "https://example.org/ada");
        ("content", JStr "Posted in 2025: the engine weaves algebraic patterns.")].

Definition plainItem : json :=
  JObj [("title", JStr "Ada on engines");
        ("url", JStr "https://example.org/ada");
        ("content", JStr "The engine weaves algebraic patterns.")].

Definition primitiveMessage (v : json) : string :=
  "Cannot create property on a primitive value".

Definition envAt (year : Z) : Env :=
  mkEnv (fun _ _ => Ok (JArr [])) (fun _ _ => Ok "Hello from the engine room.")
        year "2024-11-02" 1762041600000 primitiveMessage.

Definition envSearchDown : Env :=
  mkEnv (fun _ _ => Throw (ErrorObj "search provider unavailable"))
        (fun _ _ => Ok "Hello from the engine room.")
        2025 "2024-11-02" 1762041600000 primitiveMessage.

Definition envModelDown : Env :=
  mkEnv (fun _ _ => Ok (JArr [])) (fun _ _ => Throw (ErrorObj "model unavailable"))
        2025 "2024-11-02" 1762041600000 primitiveMessage.

(** The model answers its first call and fails from then on. *)
Definition envModelLater : Env :=
  mkEnv (fun _ _ => Ok (JArr []))
        (fun n _ => match n with
                    | O => Ok "Hello from the engine room."
                    | S _ => Throw (ErrorObj "model unavailable")
                    end)
        2025 "2024-11-02" 1762041600000 primitiveMessage.

(** The search provider answers every query with a text, not a list. *)
Definition envSearchText : Env :=
  mkEnv (fun _ _ => Ok (JStr "rate limit exceeded"))
        (fun _ _ => Ok "Hello from the engine room.")
        2025 "2024-11-02" 1762041600000 primitiveMessage.

(** The search provider answers every query with twenty items that
    mention the current year. *)
Definition envSearchRecent : Env :=
  mkEnv (fun _ _ => Ok (JArr (repeat recentItem 20)))
        (fun _ _ => Ok "Hello from the engine room.")
        2025 "2024-11-02" 1762041600000 primitiveMessage.

(** An initialized Voiceboard for Ada with one turn in its history.
    Once the flag is set no method runs the graph behind [app] again;
    the object holds the one-node graph. *)
Definition adaReady : Voiceboard.Voiceboard :=
  Voiceboard.mkVoiceboard "Ada" Voiceboard.chatWorkflow
    (mkState "Ada" (JArr []) [] false 4 "Hello from the engine room."
             [HumanMessage ""; AIMessage "Hello from the engine room."] "" "")
    true.

(** A world in which the model has been called once, for the turn in
    the history of [adaReady]. *)
Definition worldAfterInit : World :=
  mkWorld []
          [Messages [SystemMessage (Conversation.systemPrompt "Ada" "");
                     HumanMessage ""]]
          [].

Definition stateWith (ts os : list json) : ConversationState :=
  mkState "Ada" (JArr ts) os false 1 "" [] "" "".

(* ===================================================================== *)
(** ** Properties *)
(* ===================================================================== *)

Section StringFacts.

Lemma append_nil (b : string) : EmptyString +:+ b = b.
Proof. reflexivity. Qed.

Lemma append_cons (c : ascii) (a b : string) :
  String c a +:+ b = String c (a +:+ b).
Proof. reflexivity. Qed.

Lemma prefix_is_append (t s : string) :
  String.prefix t s = true <-> exists post, s = t +:+ post.
Proof.
  revert s; induction t as [|c t IH]; intros s.
  - split; [intros _; now exists s | intros _; now destruct s].
  - destruct s as [|d s]; simpl.
    + split; [discriminate | intros [post H]; discriminate].
    + destruct (ascii_dec c d) as [->|Hne].
      * rewrite IH. split; intros [post H]; exists post.
        -- now rewrite H.
        -- rewrite append_cons in H. now inversion H.
      * split; [discriminate |].
        intros [post H]. rewrite append_cons in H. inversion H; congruence.
Qed.

(** [includes] is the substring test. *)
Lemma includes_occursIn (s t : string) :
  includes s t = true <-> occursIn t s.
Proof.
  unfold occursIn. induction s as [|c s IH]; cbn [includes].
  - rewrite orb_false_r, prefix_is_append. split.
    + intros [post H]. exists EmptyString, post. exact H.
    + intros [pre [post H]]. destruct pre.
      * rewrite append_nil in H. now exists post.
      * rewrite append_cons in H. discriminate.
  - rewrite orb_true_iff, prefix_is_append, IH. split.
    + intros [[post H] | [pre [post H]]].
      * exists EmptyString, post. exact H.
      * exists (String c pre), post. rewrite append_cons. now rewrite H.
    + intros [pre [post H]]. destruct pre as [|d pre].
      * left. rewrite append_nil in H. now exists post.
      * right. exists pre, post. rewrite append_cons in H. now inversion H.
Qed.

Lemma mentionsRecentYear_mentions (year : Z) (t : json) :
  Workflow.mentionsRecentYear year t = true <-> mentions year t.
Proof.
  unfold Workflow.mentionsRecentYear, mentions.
  now rewrite orb_true_iff, !includes_occursIn.
Qed.

End StringFacts.

Section Sufficiency.

(** On an array of tweets both revisions of [evaluateData] compute the
    same decision and touch nothing else. *)
Lemma evaluateData_array (env : Env) (st : ConversationState) (w : World)
    (ts : list json) :
  tweets st = JArr ts ->
  Workflow.evaluateData st env w
  = (Ok (decision
           ((Z.of_nat (List.length ts) + Z.of_nat (List.length (otherContent st)) >=? 15)
            && existsb (Workflow.mentionsRecentYear (fullYear env)) ts)), w).
Proof.
  intros Ht. unfold Workflow.evaluateData. rewrite Ht. reflexivity.
Qed.

Lemma evaluateDataSafe_array (env : Env) (st : ConversationState) (w : World)
    (ts : list json) :
  tweets st = JArr ts ->
  WorkflowSafe.evaluateData st env w
  = (Ok (decision
           ((Z.of_nat (List.length ts) + Z.of_nat (List.length (otherContent st)) >=? 15)
            && existsb (Workflow.mentionsRecentYear (fullYear env)) ts)), w).
Proof.
  intros Ht. unfold WorkflowSafe.evaluateData. rewrite Ht. reflexivity.
Qed.

(** C1, as the code has it: [evaluateData] answers true exactly when
    tweets and otherContent together hold at least 15 items and the JSON
    text of at least one element of [tweets] contains the decimal digits
    of the current or the previous year; otherContent is counted but not
    scanned.  So 15 items without a recent year give false, and 14 items
    give false whatever they mention. *)
Theorem evaluateData_sufficient_iff (env : Env) (st : ConversationState)
    (w : World) (ts : list json) :
  tweets st = JArr ts ->
  exists b : bool,
    Workflow.evaluateData st env w = (Ok (decision b), w)
    /\ WorkflowSafe.evaluateData st env w = (Ok (decision b), w)
    /\ (b = true <->
        (15 <= List.length ts + List.length (otherContent st))%nat
        /\ exists t, In t ts /\ mentions (fullYear env) t)
    /\ ((List.length ts + List.length (otherContent st) = 15)%nat ->
        (forall t, In t ts -> ~ mentions (fullYear env) t) -> b = false)
    /\ ((List.length ts + List.length (otherContent st) = 14)%nat -> b = false).
Proof.
  intros Ht. eexists. split; [apply (evaluateData_array env st w ts Ht) |].
  split; [apply (evaluateDataSafe_array env st w ts Ht) |].
  assert (Hiff :
    (Z.of_nat (List.length ts) + Z.of_nat (List.length (otherContent st)) >=? 15)
    && existsb (Workflow.mentionsRecentYear (fullYear env)) ts = true <->
    (15 <= List.length ts + List.length (otherContent st))%nat
    /\ exists t, In t ts /\ mentions (fullYear env) t).
  { rewrite andb_true_iff, existsb_exists, Z.geb_le. split.
    - intros [Hn [t [Hin Hm]]]. split; [lia |].
      exists t. split; [exact Hin | now apply mentionsRecentYear_mentions].
    - intros [Hn [t [Hin Hm]]]. split; [lia |].
      exists t. split; [exact Hin | now apply mentionsRecentYear_mentions]. }
  split; [exact Hiff |]. split.
  - intros _ Hnone. apply not_true_is_false. intros Hb.
    apply Hiff in Hb. destruct Hb as [_ [t [Hin Hm]]]. exact (Hnone t Hin Hm).
  - intros H14. apply not_true_is_false. intros Hb.
    apply Hiff in Hb. destruct Hb as [Hn _]. lia.
Qed.

Lemma evaluateData_sufficient_iff_witness :
  exists b : bool,
    Workflow.evaluateData (stateWith (repeat recentItem 15) []) (envAt 2025) emptyWorld
    = (Ok (decision b), emptyWorld)
    /\ WorkflowSafe.evaluateData (stateWith (repeat recentItem 15) []) (envAt 2025) emptyWorld
       = (Ok (decision b), emptyWorld)
    /\ (b = true <->
        (15 <= List.length (repeat recentItem 15)
               + List.length (otherContent (stateWith (repeat recentItem 15) [])))%nat
        /\ exists t, In t (repeat recentItem 15) /\ mentions (fullYear (envAt 2025)) t)
    /\ ((List.length (repeat recentItem 15)
         + List.length (otherContent (stateWith (repeat recentItem 15) [])) = 15)%nat ->
        (forall t, In t (repeat recentItem 15) -> ~ mentions (fullYear (envAt 2025)) t) ->
        b = false)
    /\ ((List.length (repeat recentItem 15)
         + List.length (otherContent (stateWith (repeat recentItem 15) [])) = 14)%nat ->
        b = false).
Proof.
  apply (evaluateData_sufficient_iff (envAt 2025)
           (stateWith (repeat recentItem 15) []) emptyWorld (repeat recentItem 15)).
  reflexivity.
Defined.

(** C1 as the specification words it fails: fifteen snippets that all
    mention the current year, held in otherContent with no tweets, are
    sufficient by the wording and insufficient for both revisions. *)
Lemma evaluateData_scans_tweets_only :
  ~ (forall (env : Env) (st : ConversationState) (w : World) (ts : list json),
       tweets st = JArr ts ->
       fst (Workflow.evaluateData st env w)
       = Ok (decision (Spec.sufficient (fullYear env) (ts ++ otherContent st))))
  /\
  ~ (forall (env : Env) (st : ConversationState) (w : World) (ts : list json),
       tweets st = JArr ts ->
       fst (WorkflowSafe.evaluateData st env w)
       = Ok (decision (Spec.sufficient (fullYear env) (ts ++ otherContent st)))).
Proof.
  assert (Hspec :
    Spec.sufficient (fullYear (envAt 2025))
      ([] ++ otherContent (stateWith [] (repeat recentItem 15))) = true)
    by (vm_compute; reflexivity).
  split; intros H;
    specialize (H (envAt 2025) (stateWith [] (repeat recentItem 15)) emptyWorld []
                  eq_refl);
    rewrite Hspec in H.
  - assert (Hcode :
      fst (Workflow.evaluateData (stateWith [] (repeat recentItem 15))
             (envAt 2025) emptyWorld) = Ok (decision false))
      by (vm_compute; reflexivity).
    rewrite Hcode in H. discriminate H.
  - assert (Hcode :
      fst (WorkflowSafe.evaluateData (stateWith [] (repeat recentItem 15))
             (envAt 2025) emptyWorld) = Ok (decision false))
      by (vm_compute; reflexivity).
    rewrite Hcode in H. discriminate H.
Qed.

(** C8, as the code has it: the decision is a function of tweets,
    otherContent and the calendar year the clock shows, and of nothing
    else; the node calls no provider, records nothing and writes only
    [dataSufficient]; the hardened revision never throws. *)
Theorem evaluateData_deterministic (env1 env2 : Env)
    (st1 st2 : ConversationState) (w1 w2 : World) :
  tweets st1 = tweets st2 ->
  otherContent st1 = otherContent st2 ->
  fullYear env1 = fullYear env2 ->
  fst (Workflow.evaluateData st1 env1 w1) = fst (Workflow.evaluateData st2 env2 w2)
  /\ fst (WorkflowSafe.evaluateData st1 env1 w1)
     = fst (WorkflowSafe.evaluateData st2 env2 w2)
  /\ snd (Workflow.evaluateData st1 env1 w1) = w1
  /\ snd (WorkflowSafe.evaluateData st1 env1 w1) = w1
  /\ (forall p, fst (Workflow.evaluateData st1 env1 w1) = Ok p ->
                exists b, p = decision b)
  /\ (exists b, fst (WorkflowSafe.evaluateData st1 env1 w1) = Ok (decision b)).
Proof.
  intros Ht Ho Hy.
  unfold Workflow.evaluateData, WorkflowSafe.evaluateData, bind, ask, ret, throw.
  rewrite <- Ht, <- Ho, <- Hy. cbn [fst snd].
  repeat split.
  - destruct (truthy (tweets st1)); [destruct (tweets st1) |]; reflexivity.
  - destruct (truthy (tweets st1)); [destruct (tweets st1) |]; reflexivity.
  - intros p.
    destruct (truthy (tweets st1)); [destruct (tweets st1) |]; cbn [fst];
      intros Hp; try discriminate Hp; inversion Hp; eexists; reflexivity.
  - eexists; reflexivity.
Qed.

Lemma evaluateData_deterministic_witness :
  fst (Workflow.evaluateData (stateWith (repeat recentItem 15) []) (envAt 2025) emptyWorld)
  = fst (Workflow.evaluateData
           (mkState "Grace" (JArr (repeat recentItem 15)) [] true 3 "hi" [] "q" "")
           (envAt 2025) (mkWorld ["earlier query"] [] []))
  /\ fst (WorkflowSafe.evaluateData (stateWith (repeat recentItem 15) []) (envAt 2025) emptyWorld)
     = fst (WorkflowSafe.evaluateData
              (mkState "Grace" (JArr (repeat recentItem 15)) [] true 3 "hi" [] "q" "")
              (envAt 2025) (mkWorld ["earlier query"] [] []))
  /\ snd (Workflow.evaluateData (stateWith (repeat recentItem 15) []) (envAt 2025) emptyWorld)
     = emptyWorld
  /\ snd (WorkflowSafe.evaluateData (stateWith (repeat recentItem 15) []) (envAt 2025) emptyWorld)
     = emptyWorld
  /\ (forall p,
        fst (Workflow.evaluateData (stateWith (repeat recentItem 15) []) (envAt 2025) emptyWorld)
        = Ok p -> exists b, p = decision b)
  /\ (exists b,
        fst (WorkflowSafe.evaluateData (stateWith (repeat recentItem 15) []) (envAt 2025) emptyWorld)
        = Ok (decision b)).
Proof.
  apply (evaluateData_deterministic (envAt 2025) (envAt 2025)
           (stateWith (repeat recentItem 15) [])
           (mkState "Grace" (JArr (repeat recentItem 15)) [] true 3 "hi" [] "q" "")
           emptyWorld (mkWorld ["earlier query"] [] []));
    reflexivity.
Defined.

(** C8 as stated fails: the same snippet sequence is sufficient when the
    clock shows 2025 and insufficient when it shows 2027. *)
Lemma evaluateData_reads_clock :
  ~ (forall (env1 env2 : Env) (st : ConversationState) (w : World),
       fst (Workflow.evaluateData st env1 w) = fst (Workflow.evaluateData st env2 w))
  /\
  ~ (forall (env1 env2 : Env) (st : ConversationState) (w : World),
       fst (WorkflowSafe.evaluateData st env1 w)
       = fst (WorkflowSafe.evaluateData st env2 w)).
Proof.
  split; intros H;
    specialize (H (envAt 2025) (envAt 2027)
                  (stateWith (repeat recentItem 15) []) emptyWorld).
  - assert (H2025 :
      fst (Workflow.evaluateData (stateWith (repeat recentItem 15) [])
             (envAt 2025) emptyWorld) = Ok (decision true))
      by (vm_compute; reflexivity).
    assert (H2027 :
      fst (Workflow.evaluateData (stateWith (repeat recentItem 15) [])
             (envAt 2027) emptyWorld) = Ok (decision false))
      by (vm_compute; reflexivity).
    rewrite H2025, H2027 in H. discriminate H.
  - assert (H2025 :
      fst (WorkflowSafe.evaluateData (stateWith (repeat recentItem 15) [])
             (envAt 2025) emptyWorld) = Ok (decision true))
      by (vm_compute; reflexivity).
    assert (H2027 :
      fst (WorkflowSafe.evaluateData (stateWith (repeat recentItem 15) [])
             (envAt 2027) emptyWorld) = Ok (decision false))
      by (vm_compute; reflexivity).
    rewrite H2025, H2027 in H. discriminate H.
Qed.

End Sufficiency.

Section Frame.

(** C7: [clearConversation()] empties the conversation history and
    leaves every other field of the Voiceboard as it was, the collected
    tweets and otherContent and the attempt count among them. *)
Theorem clearConversation_frame (vb : Voiceboard.Voiceboard) :
  let vb' := Voiceboard.clearConversation vb in
  Voiceboard.getHistory vb' = []
  /\ tweets (Voiceboard.state vb') = tweets (Voiceboard.state vb)
  /\ otherContent (Voiceboard.state vb') = otherContent (Voiceboard.state vb)
  /\ searchAttempts (Voiceboard.state vb') = searchAttempts (Voiceboard.state vb)
  /\ dataSufficient (Voiceboard.state vb') = dataSufficient (Voiceboard.state vb)
  /\ response (Voiceboard.state vb') = response (Voiceboard.state vb)
  /\ currentQuery (Voiceboard.state vb') = currentQuery (Voiceboard.state vb)
  /\ personalityContext (Voiceboard.state vb')
     = personalityContext (Voiceboard.state vb)
  /\ State.personName (Voiceboard.state vb') = State.personName (Voiceboard.state vb)
  /\ Voiceboard.personName vb' = Voiceboard.personName vb
  /\ Voiceboard.initialized vb' = Voiceboard.initialized vb
  /\ Voiceboard.app vb' = Voiceboard.app vb.
Proof.
  cbv zeta. unfold Voiceboard.clearConversation, Voiceboard.getHistory.
  cbn. repeat split.
Qed.

End Frame.

Section Typing.

Import Server.

(** C10: whatever the chat handler receives, every [typing(true)] it
    emits is followed, after the [response] or the [error] event, by a
    [typing(false)], and the indicator is off when the handler is
    done. *)
Theorem onChat_typing_closed (sid : string) (data : Payload) (dn : option string)
    (vbs : gmap string Voiceboard.Voiceboard) (env : Env) (w : World) :
  let events := emitted (onChat sid data dn vbs env w) in
  typingOn events = false
  /\ forall i : nat,
       events !! i = Some (typing true) ->
       exists j k : nat,
         (i < k < j)%nat
         /\ events !! j = Some (typing false)
         /\ ((exists reply ts, events !! k = Some (response reply ts))
             \/ (exists m, events !! k = Some (error m))).
Proof.
  cbv zeta. unfold onChat.
  destruct data as [message|]; cbn [destructure].
  2:{ split; [reflexivity |]. intros [|[|[|i]]] H; discriminate H. }
  destruct (missing message).
  { split; [reflexivity |]. intros [|[|i]] H; discriminate H. }
  destruct (vbs !! sid) as [vb|].
  2:{ split; [reflexivity |]. intros [|[|i]] H; discriminate H. }
  destruct (Voiceboard.chat (text message) vb env w) as [[[reply|e] vb'] w'];
    cbn [emitted]; (split; [reflexivity |]);
    intros [|[|[|[|i]]]] H; try discriminate H;
    exists 2%nat, 1%nat; (split; [lia |]); (split; [reflexivity |]).
  - left. eexists _, _. reflexivity.
  - right. eexists. reflexivity.
Qed.

Lemma onChat_typing_closed_witness :
  emitted (onChat "s1" (Some (Some "hello")) None {["s1" := adaReady]} (envAt 2025)
                  emptyWorld) !! 0%nat = Some (typing true)
  /\ exists j k : nat,
       (0 < k < j)%nat
       /\ emitted (onChat "s1" (Some (Some "hello")) None {["s1" := adaReady]}
                          (envAt 2025) emptyWorld) !! j = Some (typing false)
       /\ ((exists reply ts,
              emitted (onChat "s1" (Some (Some "hello")) None {["s1" := adaReady]}
                              (envAt 2025) emptyWorld) !! k
              = Some (response reply ts))
           \/ (exists m,
                 emitted (onChat "s1" (Some (Some "hello")) None {["s1" := adaReady]}
                                 (envAt 2025) emptyWorld) !! k
                 = Some (error m))).
Proof.
  assert (Hon :
    emitted (onChat "s1" (Some (Some "hello")) None {["s1" := adaReady]} (envAt 2025)
                    emptyWorld) !! 0%nat = Some (typing true))
    by (vm_compute; reflexivity).
  split; [exact Hon |].
  exact (proj2 (onChat_typing_closed "s1" (Some (Some "hello")) None
                  {["s1" := adaReady]} (envAt 2025) emptyWorld) 0%nat Hon).
Defined.

End Typing.

Section ProviderFailure.

Import Voiceboard.

(** workflow.ts lets a failing search call escape the node. *)
Lemma searchRecentTweets_throws (env : Env) (st : ConversationState) (w : World)
    (e : Thrown) :
  tavily env (List.length (searches w))
         (State.personName st +:+ " tweets after:" +:+ oneYearAgoDate env) = Throw e ->
  Workflow.searchRecentTweets st env w
  = (Throw e,
     addSearch w (State.personName st +:+ " tweets after:" +:+ oneYearAgoDate env)).
Proof.
  intros H. unfold Workflow.searchRecentTweets, bind, ask, tavilyInvoke.
  cbv beta iota zeta. now rewrite H.
Qed.

(** The hardened revision answers a failing search call with an empty
    batch and still counts the attempt. *)
Lemma searchRecentTweetsSafe_swallows (env : Env) (st : ConversationState)
    (w : World) (e : Thrown) :
  tavily env (List.length (searches w))
         (State.personName st +:+ " tweets after:" +:+ oneYearAgoDate env) = Throw e ->
  fst (WorkflowSafe.searchRecentTweets st env w)
  = Ok (mkPatch (Some (JArr [])) None None (Some (searchAttempts st + 1))
                None None None).
Proof.
  intros H. unfold WorkflowSafe.searchRecentTweets, bind, ask, tryCatch, tavilyInvoke.
  cbv beta iota zeta. now rewrite H.
Qed.

(** The first node of a run: a graph whose entry node throws gives the
    caller of [invoke] what the node threw. *)
Lemma invoke_entry_throws (g : StateGraph) (f : ConversationState -> M Patch)
    (st : ConversationState) (env : Env) (w w1 : World) (e : Thrown) :
  nodes g (entryPoint g) = Some f ->
  f (seed st) env (addStep w (Enter (entryPoint g) (seed st))) = (Throw e, w1) ->
  invoke g st env w = (Throw (rethrown env e), w1).
Proof.
  intros Hnode Hf. unfold invoke. change recursionLimit with (S 24).
  cbn [run]. rewrite Hnode. unfold bind, record, runNode. now rewrite Hf.
Qed.

(** C6 at a search provider that is down: the hardened
    [searchRecentTweets] returns the empty batch, but the
    [searchRecentTweets] of workflow.ts, the one voiceboard.ts imports,
    throws the provider's error; whatever graph a Voiceboard holds, if
    it starts with that node [initialize()] rejects with the provider's
    error. *)
Theorem searchRecentTweets_provider_down :
  WorkflowSafe.searchRecentTweets (initialState "Ada") envSearchDown emptyWorld
  = (Ok (mkPatch (Some (JArr [])) None None (Some 1) None None None),
     mkWorld ["Ada tweets after:2024-11-02"] [] [])
  /\ Workflow.searchRecentTweets (initialState "Ada") envSearchDown emptyWorld
     = (Throw (ErrorObj "search provider unavailable"),
        mkWorld ["Ada tweets after:2024-11-02"] [] [])
  /\ forall (vb : Voiceboard) (w : World),
       initialized vb = false ->
       nodes (app vb) (entryPoint (app vb)) = Some Workflow.searchRecentTweets ->
       fst (fst (initialize vb envSearchDown w))
       = Throw (ErrorObj "search provider unavailable").
Proof.
  split; [vm_compute; reflexivity |]. split; [vm_compute; reflexivity |].
  intros vb w Hinit Hnode. unfold initialize. rewrite Hinit. cbn [negb].
  pose proof (searchRecentTweets_throws envSearchDown (seed (state vb))
                (addStep w (Enter (entryPoint (app vb)) (seed (state vb))))
                (ErrorObj "search provider unavailable") eq_refl) as Hf.
  rewrite (invoke_entry_throws _ _ _ _ _ _ _ Hnode Hf). reflexivity.
Qed.

(** C3 at a model that has answered one call and then fails: the
    hardened [generateResponse] substitutes the apology that names the
    persona, but [chat()] runs [generateConversationalResponse], which
    has no such handler: the call throws the model's error and the
    history holds no turn for the message. *)
Theorem chat_model_down :
  fst (fst (chat "hello" adaReady envModelLater worldAfterInit))
  = Throw (ErrorObj "model unavailable")
  /\ getHistory (snd (fst (chat "hello" adaReady envModelLater worldAfterInit)))
     = [HumanMessage ""; AIMessage "Hello from the engine room."]
  /\ fst (WorkflowSafe.generateResponse (state adaReady) (Some "hello")
            envModelLater worldAfterInit)
     = Ok (mkPatch None None None None
             (Some "I'm sorry, I'm having trouble generating a response right now. This is Ada speaking.")
             None None).
Proof.
  repeat (split; [vm_compute; reflexivity |]). vm_compute; reflexivity.
Qed.

End ProviderFailure.

Section Construction.

Import Voiceboard.





(** C2 at a constructor call: [buildWorkflow()] evaluates the
    identifier [shouldSearchMore], which voiceboard.ts neither imports
    nor declares, so the constructor throws and there is no coordinator
    to run.  The router that both revisions of the workflow define does
    send an insufficient state to generate from four attempts on and to
    searchMore before, and the hardened first search always counts one
    attempt. *)
Theorem coordinator_not_built :
  buildWorkflow = Throw (ErrorObj "shouldSearchMore is not defined")
  /\ new "Ada" = Throw (ErrorObj "shouldSearchMore is not defined")
  /\ (forall st : ConversationState,
        dataSufficient st = false ->
        (4 <= searchAttempts st ->
         WorkflowSafe.shouldSearchMore st = "generate"
         /\ Workflow.shouldSearchMore st = "generate")
        /\ (searchAttempts st < 4 ->
            WorkflowSafe.shouldSearchMore st = "searchMore"
            /\ Workflow.shouldSearchMore st = "searchMore"))
  /\ (forall (st : ConversationState) (env : Env) (w : World),
        exists p : Patch,
          fst (WorkflowSafe.searchRecentTweets st env w) = Ok p
          /\ searchAttempts (merge st p) = searchAttempts st + 1).
Proof.
  split; [reflexivity |]. split; [reflexivity |]. split.
  - intros st Hd. unfold WorkflowSafe.shouldSearchMore, Workflow.shouldSearchMore.
    rewrite Hd. split; intros Hsa.
    + destruct (Z.ltb_spec (searchAttempts st) 4); [lia | split; reflexivity].
    + destruct (Z.ltb_spec (searchAttempts st) 4); [split; reflexivity | lia].
  - intros st env w.
    unfold WorkflowSafe.searchRecentTweets, bind, ask, tryCatch, tavilyInvoke, ret.
    cbv beta iota zeta.
    destruct (tavily env _ _) as [v|e]; eexists; (split; [reflexivity |]);
      reflexivity.
Qed.


End Construction.

Section Turns.

Import Voiceboard.

Lemma merge_tweets_not_null (st : ConversationState) (p : Patch) :
  tweets st <> JNull -> tweets (merge st p) <> JNull.
Proof.
  intros H. cbn. unfold coalesceAny.
  destruct (p_tweets p) as [[]|]; first [exact H | discriminate].
Qed.

(** Whatever the graph, a state whose tweets are not null never gets
    null tweets: the reducer ignores a null write. *)
Lemma run_tweets_not_null (g : StateGraph) (fuel : nat) :
  forall (n : NodeName) (st st' : ConversationState) (env : Env) (w w' : World),
    tweets st <> JNull ->
    run g fuel n st env w = (Ok st', w') ->
    tweets st' <> JNull.
Proof.
  induction fuel as [|fuel IH]; intros n st st' env w w' Hnn Hrun.
  - discriminate Hrun.
  - cbn [run] in Hrun. destruct (nodes g n) as [f|]; [| discriminate Hrun].
    unfold bind, record, runNode in Hrun.
    destruct (f st env (addStep w (Enter n st))) as [[p|e] w1];
      [| discriminate Hrun].
    destruct fuel as [|fuel']; [discriminate Hrun |].
    destruct (successor g n (merge st p)) as [n'|].
    + eapply IH; [| exact Hrun]. now apply merge_tweets_not_null.
    + injection Hrun as <- _. now apply merge_tweets_not_null.
Qed.

Lemma invoke_tweets_not_null (g : StateGraph) (st st' : ConversationState)
    (env : Env) (w w' : World) :
  invoke g st env w = (Ok st', w') -> tweets st' <> JNull.
Proof.
  apply run_tweets_not_null. cbn. destruct (tweets st); discriminate.
Qed.

(** [initialize()] on a Voiceboard that is not initialized: the run of
    the stored graph throws and nothing changes, or it answers and its
    result becomes the state, with the flag set. *)
Lemma initialize_cases (vb : Voiceboard) (env : Env) (w : World) :
  initialized vb = false ->
  match initialize vb env w with
  | (Throw e, vb', w') =>
      vb' = vb /\ invoke (app vb) (state vb) env w = (Throw e, w')
  | (Ok _, vb', w') =>
      vb' = mkVoiceboard (personName vb) (app vb) (state vb') true
      /\ invoke (app vb) (state vb) env w = (Ok (state vb'), w')
  end.
Proof.
  intros Hinit. unfold initialize. rewrite Hinit. cbn [negb].
  destruct (invoke (app vb) (state vb) env w) as [[st'|e] w1] eqn:Hrun;
    [| split; reflexivity].
  pose proof (invoke_tweets_not_null _ _ _ _ _ _ Hrun) as Hnn.
  destruct (tweets st'); first [now contradiction Hnn | split; reflexivity].
Qed.

(** An [initialize()] that answers leaves the flag set. *)
Lemma initialize_ok_initialized (vb vb' : Voiceboard) (env : Env) (w w' : World)
    (u : unit) :
  initialize vb env w = (Ok u, vb', w') -> initialized vb' = true.
Proof.
  intros H. destruct (initialized vb) eqn:Hinit.
  - unfold initialize in H. rewrite Hinit in H. injection H as _ <- _. exact Hinit.
  - pose proof (initialize_cases vb env w Hinit) as Hc. rewrite H in Hc.
    destruct Hc as [-> _]. reflexivity.
Qed.

(** X5: an [initialize()] that throws leaves the Voiceboard exactly as
    it was, state and flag, so that the next call starts again from the
    same state; one that answers leaves it marked initialized. *)
Theorem initialize_all_or_nothing (vb : Voiceboard) (env : Env) (w : World) :
  match initialize vb env w with
  | (Throw _, vb', _) => vb' = vb
  | (Ok _, vb', _) => initialized vb' = true
  end.
Proof.
  destruct (initialized vb) eqn:Hinit.
  - unfold initialize. rewrite Hinit. exact Hinit.
  - pose proof (initialize_cases vb env w Hinit) as H.
    destruct (initialize vb env w) as [[[u|e] vb'] w'].
    + destruct H as [-> _]. reflexivity.
    + apply H.
Qed.

(** The generate node, by cases: the context cannot be built and the
    model is not called; or the model is called once and the node
    answers or throws as the model does. *)
Lemma generateConversationalResponse_cases (st : ConversationState)
    (env : Env) (w : World) :
  match personalityContextOf st with
  | Throw e => Conversation.generateConversationalResponse st env w = (Throw e, w)
  | Ok context =>
      Conversation.generateConversationalResponse st env w
      = match llm env (List.length (llmCalls w)) (modelInput st context) with
        | Ok reply =>
            (Ok (mkPatch None None None None (Some reply)
                   (Some (conversationHistory st
                          ++ [HumanMessage (currentQuery st); AIMessage reply]))
                   (Some context)),
             addCall w (modelInput st context))
        | Throw e => (Throw e, addCall w (modelInput st context))
        end
  end.
Proof.
  unfold personalityContextOf, Conversation.generateConversationalResponse,
    bind, lift, ret, llmInvoke, modelInput, addCall.
  destruct (spread (tweets st)) as [ts|e]; [| reflexivity].
  destruct (mapOutcome Conversation.contentOf _) as [picked|e]; [| reflexivity].
  destruct (llm env _ _) as [reply|e]; reflexivity.
Qed.

(** [chat] on an initialized Voiceboard, in terms of the generate node. *)
Lemma chat_unfold (message : string) (vb : Voiceboard) (env : Env) (w : World) :
  initialized vb = true ->
  chat message vb env w
  = let st := setCurrentQuery message (state vb) in
    match Conversation.generateConversationalResponse (seed st) env
            (addStep w (Enter generate (seed st))) with
    | (Throw e, w1) =>
        (Throw (rethrown env e), mkVoiceboard (personName vb) (app vb) st true, w1)
    | (Ok p, w1) =>
        (Ok (response (merge (seed st) p)),
         mkVoiceboard (personName vb) (app vb) (merge (seed st) p) true,
         addStep w1 (Leave generate (merge (seed st) p)))
    end.
Proof.
  intros Hinit. unfold chat. rewrite Hinit.
  cbn [negb state initialized personName app].
  unfold invoke. change recursionLimit with (S 24).
  cbn [entryPoint chatWorkflow run nodes successor]. unfold bind, record, ret, runNode.
  cbv zeta.
  destruct (Conversation.generateConversationalResponse _ env _) as [[p|e] w1];
    rewrite ?Hinit; reflexivity.
Qed.

(** What a chat turn on an initialized Voiceboard does to the flag, the
    search log and the history. *)
Lemma chat_settled (message : string) (vb : Voiceboard) (env : Env) (w : World) :
  initialized vb = true ->
  searches (snd (chat message vb env w)) = searches w
  /\ initialized (snd (fst (chat message vb env w))) = true
  /\ match fst (fst (chat message vb env w)) with
     | Ok reply =>
         getHistory (snd (fst (chat message vb env w)))
         = getHistory vb ++ [HumanMessage message; AIMessage reply]
     | Throw _ => getHistory (snd (fst (chat message vb env w))) = getHistory vb
     end.
Proof.
  intros Hinit. rewrite (chat_unfold message vb env w Hinit). cbv zeta.
  set (st := setCurrentQuery message (state vb)).
  pose proof (generateConversationalResponse_cases (seed st) env
                (addStep w (Enter generate (seed st)))) as Hgen.
  destruct (personalityContextOf (seed st)) as [context|e].
  - rewrite Hgen. clear Hgen.
    destruct (llm env _ _) as [reply|e]; cbn; split; try split; reflexivity.
  - rewrite Hgen. cbn. split; try split; reflexivity.
Qed.

(** X6: a chat turn on an initialized Voiceboard sends no search query
    and leaves the collected content, the attempt count and the
    initialized flag alone.  When it answers, the history grows by the
    user turn and the returned reply, and the model was called once with
    a system message, the earlier history and the new message; when it
    throws, the history is unchanged. *)
Theorem chat_turn (message : string) (vb : Voiceboard) (env : Env) (w : World) :
  initialized vb = true ->
  let vb' := snd (fst (chat message vb env w)) in
  let w' := snd (chat message vb env w) in
  searches w' = searches w
  /\ otherContent (state vb') = otherContent (state vb)
  /\ (tweets (state vb) <> JNull -> tweets (state vb') = tweets (state vb))
  /\ searchAttempts (state vb') = searchAttempts (state vb)
  /\ dataSufficient (state vb') = dataSufficient (state vb)
  /\ initialized vb' = true
  /\ currentQuery (state vb') = message
  /\ match fst (fst (chat message vb env w)) with
     | Ok reply =>
         getHistory vb' = getHistory vb ++ [HumanMessage message; AIMessage reply]
         /\ response (state vb') = reply
         /\ exists system : string,
              llmCalls w'
              = llmCalls w
                ++ [Messages (SystemMessage system
                              :: getHistory vb ++ [HumanMessage message])]
     | Throw _ => getHistory vb' = getHistory vb
     end.
Proof.
  intros Hinit. cbv zeta. rewrite (chat_unfold message vb env w Hinit). cbv zeta.
  set (st := setCurrentQuery message (state vb)).
  pose proof (generateConversationalResponse_cases (seed st) env
                (addStep w (Enter generate (seed st)))) as Hgen.
  destruct (personalityContextOf (seed st)) as [context|e].
  - rewrite Hgen. clear Hgen.
    destruct (llm env _ _) as [reply|e]; cbn;
      repeat match goal with |- _ /\ _ => split end;
      try reflexivity;
      try (intros Hnn; destruct (tweets (state vb));
           first [reflexivity | now contradiction Hnn]).
    eexists. reflexivity.
  - rewrite Hgen. cbn.
    repeat match goal with |- _ /\ _ => split end; reflexivity.
Qed.

Lemma chat_turn_witness :
  getHistory (snd (fst (chat "hello" adaReady (envAt 2025) emptyWorld)))
  = getHistory adaReady
    ++ [HumanMessage "hello"; AIMessage "Hello from the engine room."]
  /\ searches (snd (chat "hello" adaReady (envAt 2025) emptyWorld))
     = searches emptyWorld.
Proof.
  assert (Hok : fst (fst (chat "hello" adaReady (envAt 2025) emptyWorld))
                = Ok "Hello from the engine room.") by (vm_compute; reflexivity).
  pose proof (chat_turn "hello" adaReady (envAt 2025) emptyWorld eq_refl) as H.
  cbv zeta in H. rewrite Hok in H.
  destruct H as (Hs & _ & _ & _ & _ & _ & _ & Hh & _).
  split; [exact Hh | exact Hs].
Defined.


Lemma personalityContextOf_chat (message : string) (st : ConversationState)
    (context : string) :
  personalityContextOf st = Ok context ->
  personalityContextOf (seed (setCurrentQuery message st)) = Ok context.
Proof.
  unfold personalityContextOf. cbn [seed setCurrentQuery tweets otherContent].
  destruct (tweets st); cbn; try discriminate; trivial.
Qed.

(** X7: clearing the conversation resets what the model is told about
    the conversation and nothing else: for the same message, the next
    chat turn sends the same system message with the same personality
    context, followed by the new message alone instead of the earlier
    history and the new message. *)
Theorem clear_resets_model_context (message : string) (vb : Voiceboard)
    (env : Env) (w : World) (context : string) :
  initialized vb = true ->
  personalityContextOf (state vb) = Ok context ->
  llmCalls (snd (chat message vb env w))
  = llmCalls w
    ++ [Messages
          (SystemMessage (Conversation.systemPrompt (State.personName (state vb)) context)
           :: getHistory vb ++ [HumanMessage message])]
  /\ llmCalls (snd (chat message (clearConversation vb) env w))
     = llmCalls w
       ++ [Messages
             [SystemMessage (Conversation.systemPrompt (State.personName (state vb)) context);
              HumanMessage message]].
Proof.
  intros Hinit Hctx.
  assert (Hturn : forall v : Voiceboard,
    initialized v = true ->
    personalityContextOf (state v) = Ok context ->
    llmCalls (snd (chat message v env w))
    = llmCalls w
      ++ [Messages
            (SystemMessage (Conversation.systemPrompt (State.personName (state v)) context)
             :: getHistory v ++ [HumanMessage message])]).
  { intros v Hv Hc. rewrite (chat_unfold message v env w Hv). cbv zeta.
    pose proof (generateConversationalResponse_cases
                  (seed (setCurrentQuery message (state v))) env
                  (addStep w (Enter generate (seed (setCurrentQuery message (state v))))))
      as Hgen.
    rewrite (personalityContextOf_chat message (state v) context Hc) in Hgen.
    rewrite Hgen. destruct (llm env _ _) as [reply|e]; reflexivity. }
  split; [exact (Hturn vb Hinit Hctx) |].
  exact (Hturn (clearConversation vb) Hinit Hctx).
Qed.

Lemma clear_resets_model_context_witness :
  llmCalls (snd (chat "hello" adaReady (envAt 2025) emptyWorld))
  = llmCalls emptyWorld
    ++ [Messages
          (SystemMessage (Conversation.systemPrompt "Ada" "")
           :: getHistory adaReady ++ [HumanMessage "hello"])]
  /\ llmCalls (snd (chat "hello" (clearConversation adaReady) (envAt 2025) emptyWorld))
     = llmCalls emptyWorld
       ++ [Messages
             [SystemMessage (Conversation.systemPrompt "Ada" "");
              HumanMessage "hello"]].
Proof.
  exact (clear_resets_model_context "hello" adaReady (envAt 2025) emptyWorld ""
           eq_refl eq_refl).
Defined.

Lemma alternating_app (q r : string) :
  forall h : list BaseMessage,
    alternating h = true ->
    alternating (h ++ [HumanMessage q; AIMessage r]) = true.
Proof.
  assert (Hlen : forall (n : nat) (h : list BaseMessage),
             (List.length h <= n)%nat ->
             alternating h = true ->
             alternating (h ++ [HumanMessage q; AIMessage r]) = true).
  { induction n as [|n IH]; intros h Hn Hh.
    - destruct h; [reflexivity | cbn in Hn; lia].
    - destruct h as [|[c|c|c] [|[c'|c'|c'] rest]]; try discriminate Hh;
        try reflexivity.
      cbn in Hn, Hh |- *. apply IH; [lia | exact Hh]. }
  intros h. exact (Hlen (List.length h) h (le_n _)).
Qed.

(** One call on an initialized Voiceboard: it stays initialized, no
    search query is sent and an alternating history stays so. *)
Lemma perform_settled (c : Call) (vb : Voiceboard) (env : Env) (w : World) :
  initialized vb = true ->
  alternating (getHistory vb) = true ->
  initialized (fst (perform c vb env w)) = true
  /\ alternating (getHistory (fst (perform c vb env w))) = true
  /\ searches (snd (perform c vb env w)) = searches w.
Proof.
  intros Hinit Halt. destruct c as [|message|]; cbn [perform].
  - unfold initialize. rewrite Hinit. cbn. now repeat split.
  - pose proof (chat_settled message vb env w Hinit) as H.
    destruct (chat message vb env w) as [[r vb'] w']. cbn [fst snd] in *.
    destruct H as (Hs & Hi & Hh).
    split; [exact Hi |]. split; [| exact Hs].
    destruct r as [reply|e]; rewrite Hh; [now apply alternating_app | exact Halt].
  - cbn. now repeat split.
Qed.

(** X8: on an initialized Voiceboard whose history is a sequence of
    user turns each followed by one reply, any sequence of initialize,
    chat and clear calls, whether they answer or throw, keeps the
    history of that shape, keeps the Voiceboard initialized and sends no
    search query. *)
Theorem history_alternates (calls : list Call) (vb : Voiceboard) (env : Env)
    (w : World) :
  initialized vb = true ->
  alternating (getHistory vb) = true ->
  alternating (getHistory (fst (performAll calls vb env w))) = true
  /\ initialized (fst (performAll calls vb env w)) = true
  /\ searches (snd (performAll calls vb env w)) = searches w.
Proof.
  revert vb w. induction calls as [|c rest IH]; intros vb w Hinit Halt.
  - cbn. now repeat split.
  - cbn [performAll].
    destruct (perform_settled c vb env w Hinit Halt) as (Hi & Ha & Hs).
    destruct (perform c vb env w) as [vb' w']. cbn [fst snd] in Hi, Ha, Hs.
    destruct (IH vb' w' Hi Ha) as (Ha' & Hi' & Hs').
    split; [exact Ha' |]. split; [exact Hi' |]. now rewrite Hs'.
Qed.

Lemma history_alternates_witness :
  alternating
    (getHistory (fst (performAll [callChat "hello"; callClear; callChat "again";
                                  callInitialize; callChat "and again"]
                                 adaReady envModelLater emptyWorld))) = true
  /\ initialized (fst (performAll [callChat "hello"; callClear; callChat "again";
                                   callInitialize; callChat "and again"]
                                  adaReady envModelLater emptyWorld)) = true
  /\ searches (snd (performAll [callChat "hello"; callClear; callChat "again";
                                callInitialize; callChat "and again"]
                               adaReady envModelLater emptyWorld))
     = searches emptyWorld.
Proof.
  apply (history_alternates
           [callChat "hello"; callClear; callChat "again"; callInitialize;
            callChat "and again"] adaReady envModelLater emptyWorld);
    reflexivity.
Defined.

(** X9: [refreshPersonality()] forgets the collected content and the
    flag and then initializes.  When it throws, the Voiceboard is left
    uninitialized with empty tweets and otherContent and attempt count
    0, and with its history, query and response as they were; when it
    answers, the Voiceboard is initialized and its state is what the
    stored graph returned for the emptied state. *)
Theorem refreshPersonality_restarts (vb : Voiceboard) (env : Env) (w : World) :
  match refreshPersonality vb env w with
  | (Throw e, vb', w') =>
      vb' = forgetPersonality vb
      /\ initialized vb' = false
      /\ tweets (state vb') = JArr []
      /\ otherContent (state vb') = []
      /\ searchAttempts (state vb') = 0
      /\ getHistory vb' = getHistory vb
      /\ currentQuery (state vb') = currentQuery (state vb)
      /\ response (state vb') = response (state vb)
      /\ invoke (app vb) (state (forgetPersonality vb)) env w = (Throw e, w')
  | (Ok _, vb', w') =>
      initialized vb' = true
      /\ personName vb' = personName vb
      /\ app vb' = app vb
      /\ invoke (app vb) (state (forgetPersonality vb)) env w = (Ok (state vb'), w')
  end.
Proof.
  unfold refreshPersonality.
  pose proof (initialize_cases (forgetPersonality vb) env w eq_refl) as H.
  destruct (initialize (forgetPersonality vb) env w) as [[[u|e] vb'] w'].
  - destruct H as [Hvb Hrun]. rewrite Hvb. cbn. now repeat split.
  - destruct H as [-> Hrun]. cbn. repeat split. exact Hrun.
Qed.


End Turns.

Section Sessions.

Import Voiceboard Server.

Lemma allInitialized_insert (sid : string) (vb : Voiceboard)
    (vbs : gmap string Voiceboard) :
  allInitialized vbs -> initialized vb = true ->
  allInitialized (<[sid := vb]> vbs).
Proof.
  intros Hall Hvb k v. rewrite lookup_insert.
  case_decide; [intros Hk; injection Hk as <-; exact Hvb | apply Hall].
Qed.

Lemma allInitialized_delete (sid : string) (vbs : gmap string Voiceboard) :
  allInitialized vbs -> allInitialized (delete sid vbs).
Proof.
  intros Hall k v. rewrite lookup_delete.
  case_decide; [discriminate | apply Hall].
Qed.

(** The registry after a REST create is the old one, or the old one
    with an initialized Voiceboard under the session id. *)
Lemma postCreate_registry (personName sessionId : option string)
    (vbs : gmap string Voiceboard) (env : Env) (w : World) :
  snd (fst (postCreate personName sessionId vbs env w)) = vbs
  \/ exists vb : Voiceboard,
       initialized vb = true
       /\ statusCode (fst (fst (postCreate personName sessionId vbs env w))) = 200
       /\ snd (fst (postCreate personName sessionId vbs env w))
          = <[text sessionId := vb]> vbs.
Proof.
  unfold postCreate.
  destruct (missing personName || missing sessionId); [now left |].
  destruct (new (text personName)) as [vb0|e]; [| now left].
  destruct (initialize vb0 env w) as [[[u|e] vb'] w'] eqn:Hi; [| now left].
  right. exists vb'. cbn.
  split; [exact (initialize_ok_initialized _ _ _ _ _ _ Hi) | now split].
Qed.

(** The same for the socket handler, with the events it emits. *)
Lemma onCreateVoiceboard_registry (sid : string) (data : Payload)
    (dn : option string) (vbs : gmap string Voiceboard) (env : Env) (w : World) :
  (registry (onCreateVoiceboard sid data dn vbs env w) = vbs
   /\ dataPersonName (onCreateVoiceboard sid data dn vbs env w) = dn
   /\ forall name, ~ In (voiceboard_ready name)
                        (emitted (onCreateVoiceboard sid data dn vbs env w)))
  \/ exists (vb : Voiceboard) (name : string),
       initialized vb = true
       /\ emitted (onCreateVoiceboard sid data dn vbs env w)
          = [status "Initializing voiceboard..."; voiceboard_ready name]
       /\ registry (onCreateVoiceboard sid data dn vbs env w) = <[sid := vb]> vbs.
Proof.
  assert (Hnone : forall (m : string) (name : string),
             ~ In (voiceboard_ready name) [error m]).
  { intros m name [H | []]. discriminate H. }
  unfold onCreateVoiceboard.
  destruct data as [personName|]; cbn [destructure];
    [| left; cbn; repeat split; apply Hnone].
  destruct (missing personName); [left; cbn; repeat split; apply Hnone |].
  destruct (new (text personName)) as [vb0|e];
    [| left; cbn; repeat split; apply Hnone].
  destruct (initialize vb0 env w) as [[[u|e] vb'] w'] eqn:Hi.
  - right. exists vb', (text personName). cbn.
    split; [exact (initialize_ok_initialized _ _ _ _ _ _ Hi) | now split].
  - left. cbn. repeat split. intros name [H | [H | []]]; discriminate H.
Qed.

(** X12: the registry changes only when a handler succeeds.  A REST
    request answered 400 or 404 leaves the registry and the world as
    they were, so no provider was called; a create answered 500 leaves
    the registry as it was; a socket chat that emits no [typing(true)]
    emitted one error, followed by [typing(false)] when the event came
    without a payload, and left the registry and the world as they
    were; a socket create that emits no voiceboard-ready event leaves
    the registry as it was. *)
Theorem rejection_changes_nothing (personName sessionId message dn : option string)
    (created chatted : Payload)
    (socketId : string) (vbs : gmap string Voiceboard) (env : Env) (w : World) :
  (statusCode (fst (fst (postCreate personName sessionId vbs env w))) = 400 ->
   snd (fst (postCreate personName sessionId vbs env w)) = vbs
   /\ snd (postCreate personName sessionId vbs env w) = w)
  /\ (statusCode (fst (fst (postCreate personName sessionId vbs env w))) = 500 ->
      snd (fst (postCreate personName sessionId vbs env w)) = vbs)
  /\ (statusCode (fst (fst (postChat sessionId message vbs env w))) = 400
      \/ statusCode (fst (fst (postChat sessionId message vbs env w))) = 404 ->
      snd (fst (postChat sessionId message vbs env w)) = vbs
      /\ snd (postChat sessionId message vbs env w) = w)
  /\ (~ In (typing true) (emitted (onChat socketId chatted dn vbs env w)) ->
      registry (onChat socketId chatted dn vbs env w) = vbs
      /\ world (onChat socketId chatted dn vbs env w) = w
      /\ exists m,
           emitted (onChat socketId chatted dn vbs env w)
           = match chatted with
             | Some _ => [error m]
             | None => [error m; typing false]
             end)
  /\ ((forall name, ~ In (voiceboard_ready name)
                         (emitted (onCreateVoiceboard socketId created dn vbs env w))) ->
      registry (onCreateVoiceboard socketId created dn vbs env w) = vbs
      /\ dataPersonName (onCreateVoiceboard socketId created dn vbs env w) = dn).
Proof.
  repeat match goal with |- _ /\ _ => split end.
  - unfold postCreate.
    destruct (missing personName || missing sessionId); [now split |].
    destruct (new (text personName)) as [vb0|e]; [| cbn; discriminate].
    destruct (initialize vb0 env w) as [[[u|e] vb'] w']; cbn; discriminate.
  - destruct (postCreate_registry personName sessionId vbs env w)
      as [H | (vb & _ & H200 & _)]; [intros _; exact H |].
    rewrite H200. discriminate.
  - unfold postChat.
    destruct (missing sessionId || missing message); [now split |].
    destruct (vbs !! text sessionId) as [vb|]; [| now split].
    destruct (chat _ vb env w) as [[[reply|e] vb'] w']; cbn;
      intros [H | H]; discriminate H.
  - unfold onChat.
    destruct chatted as [field|]; cbn [destructure];
      [| intros _; cbn; eauto].
    destruct (missing field); [intros _; cbn; eauto |].
    destruct (vbs !! socketId) as [vb|]; [| intros _; cbn; eauto].
    destruct (chat _ vb env w) as [[[reply|e] vb'] w']; cbn;
      intros H; exfalso; apply H; now left.
  - destruct (onCreateVoiceboard_registry socketId created dn vbs env w)
      as [(Hr & Hd & _) | (vb & name & _ & He & _)]; [intros _; now split |].
    intros H. exfalso. apply (H name). rewrite He. right. now left.
Qed.

(** X13: sessions are isolated: no REST or socket handler called for one
    session id changes the Voiceboard stored under another id. *)
Theorem other_sessions_untouched (sid other : string)
    (personName message dn : option string) (created chatted : Payload)
    (vbs : gmap string Voiceboard) (env : Env) (w : World) :
  sid <> other ->
  snd (fst (postCreate personName (Some sid) vbs env w)) !! other = vbs !! other
  /\ snd (fst (postChat (Some sid) message vbs env w)) !! other = vbs !! other
  /\ snd (deleteVoiceboard sid vbs) !! other = vbs !! other
  /\ registry (onCreateVoiceboard sid created dn vbs env w) !! other = vbs !! other
  /\ registry (onChat sid chatted dn vbs env w) !! other = vbs !! other
  /\ registry (onClearConversation sid dn vbs w) !! other = vbs !! other
  /\ onDisconnect sid vbs !! other = vbs !! other.
Proof.
  intros Hne.
  repeat match goal with |- _ /\ _ => split end.
  - destruct (postCreate_registry personName (Some sid) vbs env w)
      as [-> | (vb & _ & _ & ->)]; [reflexivity |].
    cbn [text]. now rewrite lookup_insert_ne.
  - unfold postChat. cbn [text]. destruct (_ || _); [reflexivity |].
    destruct (vbs !! sid) as [vb|]; [| reflexivity].
    destruct (chat _ vb env w) as [[[reply|e] vb'] w']; cbn;
      now rewrite lookup_insert_ne.
  - unfold deleteVoiceboard.
    destruct (vbs !! sid); cbn; [now rewrite lookup_delete_ne | reflexivity].
  - destruct (onCreateVoiceboard_registry sid created dn vbs env w)
      as [(-> & _) | (vb & name & _ & _ & ->)]; [reflexivity |].
    now rewrite lookup_insert_ne.
  - unfold onChat. destruct chatted as [field|]; cbn [destructure]; [| reflexivity].
    destruct (missing field); [reflexivity |].
    destruct (vbs !! sid) as [vb|]; [| reflexivity].
    destruct (chat _ vb env w) as [[[reply|e] vb'] w']; cbn;
      now rewrite lookup_insert_ne.
  - unfold onClearConversation.
    destruct (vbs !! sid); cbn; [now rewrite lookup_insert_ne | reflexivity].
  - unfold onDisconnect. now rewrite lookup_delete_ne.
Qed.

Lemma other_sessions_untouched_witness :
  snd (fst (postCreate (Some "Grace") (Some "s1") {["s2" := adaReady]} (envAt 2025)
              emptyWorld)) !! "s2"
  = ({["s2" := adaReady]} : gmap string Voiceboard) !! "s2"
  /\ snd (fst (postChat (Some "s1") (Some "hello") {["s2" := adaReady]} (envAt 2025)
                 emptyWorld)) !! "s2"
     = ({["s2" := adaReady]} : gmap string Voiceboard) !! "s2"
  /\ snd (deleteVoiceboard "s1" {["s2" := adaReady]}) !! "s2"
     = ({["s2" := adaReady]} : gmap string Voiceboard) !! "s2"
  /\ registry (onCreateVoiceboard "s1" (Some (Some "Grace")) None {["s2" := adaReady]}
                 (envAt 2025) emptyWorld) !! "s2"
     = ({["s2" := adaReady]} : gmap string Voiceboard) !! "s2"
  /\ registry (onChat "s1" (Some (Some "hello")) None {["s2" := adaReady]} (envAt 2025)
                 emptyWorld) !! "s2"
     = ({["s2" := adaReady]} : gmap string Voiceboard) !! "s2"
  /\ registry (onClearConversation "s1" None {["s2" := adaReady]} emptyWorld) !! "s2"
     = ({["s2" := adaReady]} : gmap string Voiceboard) !! "s2"
  /\ onDisconnect "s1" {["s2" := adaReady]} !! "s2"
     = ({["s2" := adaReady]} : gmap string Voiceboard) !! "s2".
Proof.
  apply (other_sessions_untouched "s1" "s2" (Some "Grace") (Some "hello") None
           (Some (Some "Grace")) (Some (Some "hello"))
           {["s2" := adaReady]} (envAt 2025) emptyWorld).
  discriminate.
Defined.

(** X14: every Voiceboard the server stores has completed its
    initialization: the empty registry satisfies this and every handler
    preserves it.  Hence the two chat handlers never send a search
    query. *)
Theorem registry_holds_initialized (sid : string)
    (personName sessionId message dn : option string) (created chatted : Payload)
    (vbs : gmap string Voiceboard) (env : Env) (w : World) :
  allInitialized vbs ->
  allInitialized ∅
  /\ allInitialized (snd (fst (postCreate personName sessionId vbs env w)))
  /\ allInitialized (snd (fst (postChat sessionId message vbs env w)))
  /\ allInitialized (snd (deleteVoiceboard sid vbs))
  /\ allInitialized (registry (onCreateVoiceboard sid created dn vbs env w))
  /\ allInitialized (registry (onChat sid chatted dn vbs env w))
  /\ allInitialized (registry (onClearConversation sid dn vbs w))
  /\ allInitialized (onDisconnect sid vbs)
  /\ searches (snd (postChat sessionId message vbs env w)) = searches w
  /\ searches (world (onChat sid chatted dn vbs env w)) = searches w.
Proof.
  intros Hall.
  repeat match goal with |- _ /\ _ => split end.
  - intros k v H. rewrite lookup_empty in H. discriminate H.
  - destruct (postCreate_registry personName sessionId vbs env w)
      as [-> | (vb & Hi & _ & ->)]; [exact Hall |].
    now apply allInitialized_insert.
  - unfold postChat. destruct (_ || _); [exact Hall |].
    destruct (vbs !! text sessionId) as [vb|] eqn:Hvb; [| exact Hall].
    destruct (chat_settled (text message) vb env w (Hall _ _ Hvb)) as (_ & Hi & _).
    destruct (chat _ vb env w) as [[[reply|e] vb'] w']; cbn in *;
      now apply allInitialized_insert.
  - unfold deleteVoiceboard.
    destruct (vbs !! sid); cbn; [now apply allInitialized_delete | exact Hall].
  - destruct (onCreateVoiceboard_registry sid created dn vbs env w)
      as [(-> & _) | (vb & name & Hi & _ & ->)]; [exact Hall |].
    now apply allInitialized_insert.
  - unfold onChat. destruct chatted as [field|]; cbn [destructure]; [| exact Hall].
    destruct (missing field); [exact Hall |].
    destruct (vbs !! sid) as [vb|] eqn:Hvb; [| exact Hall].
    destruct (chat_settled (text field) vb env w (Hall _ _ Hvb)) as (_ & Hi & _).
    destruct (chat _ vb env w) as [[[reply|e] vb'] w']; cbn in *;
      now apply allInitialized_insert.
  - unfold onClearConversation.
    destruct (vbs !! sid) as [vb|] eqn:Hvb; cbn; [| exact Hall].
    apply allInitialized_insert; [exact Hall |].
    cbn. exact (Hall _ _ Hvb).
  - unfold onDisconnect. now apply allInitialized_delete.
  - unfold postChat. destruct (_ || _); [reflexivity |].
    destruct (vbs !! text sessionId) as [vb|] eqn:Hvb; [| reflexivity].
    destruct (chat_settled (text message) vb env w (Hall _ _ Hvb)) as (Hs & _).
    destruct (chat _ vb env w) as [[[reply|e] vb'] w']; exact Hs.
  - unfold onChat. destruct chatted as [field|]; cbn [destructure]; [| reflexivity].
    destruct (missing field); [reflexivity |].
    destruct (vbs !! sid) as [vb|] eqn:Hvb; [| reflexivity].
    destruct (chat_settled (text field) vb env w (Hall _ _ Hvb)) as (Hs & _).
    destruct (chat _ vb env w) as [[[reply|e] vb'] w']; exact Hs.
Qed.

Lemma registry_holds_initialized_witness :
  allInitialized ∅
  /\ allInitialized (snd (fst (postCreate (Some "Grace") (Some "s2")
                                 {["s1" := adaReady]} (envAt 2025) emptyWorld)))
  /\ allInitialized (snd (fst (postChat (Some "s1") (Some "hello")
                                 {["s1" := adaReady]} (envAt 2025) emptyWorld)))
  /\ allInitialized (snd (deleteVoiceboard "s1" {["s1" := adaReady]}))
  /\ allInitialized (registry (onCreateVoiceboard "s1" (Some (Some "Grace")) None
                                 {["s1" := adaReady]} (envAt 2025) emptyWorld))
  /\ allInitialized (registry (onChat "s1" (Some (Some "hello")) None
                                 {["s1" := adaReady]} (envAt 2025) emptyWorld))
  /\ allInitialized (registry (onClearConversation "s1" None
                                 {["s1" := adaReady]} emptyWorld))
  /\ allInitialized (onDisconnect "s1" {["s1" := adaReady]})
  /\ searches (snd (postChat (Some "s1") (Some "hello") {["s1" := adaReady]}
                            (envAt 2025) emptyWorld)) = searches emptyWorld
  /\ searches (world (onChat "s1" (Some (Some "hello")) None {["s1" := adaReady]}
                             (envAt 2025) emptyWorld)) = searches emptyWorld.
Proof.
  apply (registry_holds_initialized "s1" (Some "Grace") (Some "s1") (Some "hello")
           None (Some (Some "Grace")) (Some (Some "hello"))
           {["s1" := adaReady]} (envAt 2025) emptyWorld).
  intros k v H. apply lookup_singleton_Some in H. destruct H as [_ <-]. reflexivity.
Defined.

(** X15: a session that was deleted or disconnected is gone: a chat for
    it is answered 404, or with the error event and no typing event, and
    calls no provider; a second delete reports 404 and changes
    nothing. *)
Theorem removed_session_is_gone (sid message : string) (dn : option string)
    (vbs : gmap string Voiceboard) (env : Env) (w : World) :
  sid <> EmptyString ->
  message <> EmptyString ->
  postChat (Some sid) (Some message) (snd (deleteVoiceboard sid vbs)) env w
  = (mkResponse 404
       (JObj [("error", JStr "Voiceboard not found. Please create a voiceboard first.")]),
     snd (deleteVoiceboard sid vbs), w)
  /\ onChat sid (Some (Some message)) dn (onDisconnect sid vbs) env w
     = mkHandled [error "Please create a voiceboard first"] (onDisconnect sid vbs) dn w
  /\ deleteVoiceboard sid (snd (deleteVoiceboard sid vbs))
     = (mkResponse 404 (JObj [("error", JStr "Voiceboard not found")]),
        snd (deleteVoiceboard sid vbs)).
Proof.
  intros Hsid Hmsg.
  assert (Hgone : snd (deleteVoiceboard sid vbs) !! sid = None).
  { unfold deleteVoiceboard. destruct (vbs !! sid) eqn:H; cbn;
      [apply lookup_delete_eq | exact H]. }
  apply String.eqb_neq in Hsid, Hmsg.
  unfold postChat, onChat, onDisconnect, missing. cbn [text destructure].
  rewrite Hsid, Hmsg. cbn [orb].
  rewrite Hgone, lookup_delete_eq.
  split; [reflexivity |]. split; [reflexivity |].
  unfold deleteVoiceboard at 1. now rewrite Hgone.
Qed.

Lemma removed_session_is_gone_witness :
  postChat (Some "s1") (Some "hello")
    (snd (deleteVoiceboard "s1" {["s1" := adaReady]})) (envAt 2025) emptyWorld
  = (mkResponse 404
       (JObj [("error", JStr "Voiceboard not found. Please create a voiceboard first.")]),
     snd (deleteVoiceboard "s1" {["s1" := adaReady]}), emptyWorld)
  /\ onChat "s1" (Some (Some "hello")) None (onDisconnect "s1" {["s1" := adaReady]})
       (envAt 2025) emptyWorld
     = mkHandled [error "Please create a voiceboard first"]
         (onDisconnect "s1" {["s1" := adaReady]}) None emptyWorld
  /\ deleteVoiceboard "s1" (snd (deleteVoiceboard "s1" {["s1" := adaReady]}))
     = (mkResponse 404 (JObj [("error", JStr "Voiceboard not found")]),
        snd (deleteVoiceboard "s1" {["s1" := adaReady]})).
Proof.
  apply (removed_session_is_gone "s1" "hello" None {["s1" := adaReady]}
           (envAt 2025) emptyWorld); discriminate.
Defined.



End Sessions.

Section Collection.

(** X2: a follow-up search that answers appends exactly the items the
    provider returned, in their order, to otherContent; it sends the one
    query for the current attempt count, leaves the tweets, the decision
    and the history as they were and adds one to searchAttempts.  Both
    revisions return the same patch. *)
Theorem follow_up_appends_found_items (st : ConversationState) (env : Env)
    (w : World) (v : json) (items : list json) :
  tavily env (List.length (searches w)) (Workflow.additionalQuery st) = Ok v ->
  spread v = Ok items ->
  exists p : Patch,
    Workflow.searchAdditionalSources st env w
    = (Ok p, addSearch w (Workflow.additionalQuery st))
    /\ WorkflowSafe.searchAdditionalSources st env w
       = (Ok p, addSearch w (Workflow.additionalQuery st))
    /\ otherContent (merge st p) = otherContent st ++ items
    /\ tweets (merge st p) = tweets st
    /\ dataSufficient (merge st p) = dataSufficient st
    /\ searchAttempts (merge st p) = searchAttempts st + 1
    /\ conversationHistory (merge st p) = conversationHistory st.
Proof.
  intros Hcall Hspread.
  exists (mkPatch None (Some (otherContent st ++ items)) None
                  (Some (searchAttempts st + 1)) None None None).
  unfold Workflow.searchAdditionalSources, WorkflowSafe.searchAdditionalSources,
    bind, lift, ret, tryCatch, tavilyInvoke, addSearch.
  rewrite Hcall, Hspread. cbn.
  repeat match goal with |- _ /\ _ => split end; reflexivity.
Qed.

Lemma follow_up_appends_found_items_witness :
  exists p : Patch,
    Workflow.searchAdditionalSources (stateWith [plainItem] [plainItem])
      envSearchRecent emptyWorld
    = (Ok p, addSearch emptyWorld
               (Workflow.additionalQuery (stateWith [plainItem] [plainItem])))
    /\ WorkflowSafe.searchAdditionalSources (stateWith [plainItem] [plainItem])
         envSearchRecent emptyWorld
       = (Ok p, addSearch emptyWorld
                  (Workflow.additionalQuery (stateWith [plainItem] [plainItem])))
    /\ otherContent (merge (stateWith [plainItem] [plainItem]) p)
       = otherContent (stateWith [plainItem] [plainItem]) ++ repeat recentItem 20
    /\ tweets (merge (stateWith [plainItem] [plainItem]) p)
       = tweets (stateWith [plainItem] [plainItem])
    /\ dataSufficient (merge (stateWith [plainItem] [plainItem]) p)
       = dataSufficient (stateWith [plainItem] [plainItem])
    /\ searchAttempts (merge (stateWith [plainItem] [plainItem]) p)
       = searchAttempts (stateWith [plainItem] [plainItem]) + 1
    /\ conversationHistory (merge (stateWith [plainItem] [plainItem]) p)
       = conversationHistory (stateWith [plainItem] [plainItem]).
Proof.
  exact (follow_up_appends_found_items (stateWith [plainItem] [plainItem])
           envSearchRecent emptyWorld (JArr (repeat recentItem 20))
           (repeat recentItem 20) eq_refl eq_refl).
Defined.

(** X3: a follow-up search cannot make the data sufficient.  When no
    element of the tweets mentions the current or the previous year,
    the evaluation that follows a follow-up search says insufficient
    whatever the search found, and the tweets are still the same, in
    both revisions. *)
Theorem follow_up_cannot_make_sufficient (st : ConversationState) (env : Env)
    (w : World) (ts : list json) :
  tweets st = JArr ts ->
  existsb (Workflow.mentionsRecentYear (fullYear env)) ts = false ->
  match WorkflowSafe.searchAdditionalSources st env w with
  | (Ok p, w') =>
      WorkflowSafe.evaluateData (merge st p) env w' = (Ok (decision false), w')
      /\ tweets (merge st p) = JArr ts
  | (Throw _, _) => False
  end
  /\ match Workflow.searchAdditionalSources st env w with
     | (Ok p, w') =>
         Workflow.evaluateData (merge st p) env w' = (Ok (decision false), w')
         /\ tweets (merge st p) = JArr ts
     | (Throw _, _) => True
     end.
Proof.
  intros Ht Hno.
  assert (Hafter : forall (p : Patch) (w' : World),
             p_tweets p = None ->
             WorkflowSafe.evaluateData (merge st p) env w' = (Ok (decision false), w')
             /\ Workflow.evaluateData (merge st p) env w' = (Ok (decision false), w')
             /\ tweets (merge st p) = JArr ts).
  { intros p w' Hp.
    assert (Htw : tweets (merge st p) = JArr ts) by (cbn; now rewrite Hp, Ht).
    rewrite (evaluateDataSafe_array env (merge st p) w' ts Htw),
            (evaluateData_array env (merge st p) w' ts Htw), Hno, andb_false_r.
    now repeat split. }
  unfold Workflow.searchAdditionalSources, WorkflowSafe.searchAdditionalSources,
    bind, lift, ret, tryCatch, tavilyInvoke.
  destruct (tavily env _ _) as [v|e]; [destruct (spread v) as [items|e] |];
    cbv beta iota zeta; split;
    first [ exact I
          | match goal with
            | |- _ (merge st ?p) env ?w' = _ /\ _ =>
                destruct (Hafter p w' eq_refl) as (Hs & Hp & Ht'); now split
            end ].
Qed.

Lemma follow_up_cannot_make_sufficient_witness :
  match WorkflowSafe.searchAdditionalSources (stateWith [plainItem] []) envSearchRecent
          emptyWorld with
  | (Ok p, w') =>
      WorkflowSafe.evaluateData (merge (stateWith [plainItem] []) p) envSearchRecent w'
      = (Ok (decision false), w')
      /\ tweets (merge (stateWith [plainItem] []) p) = JArr [plainItem]
  | (Throw _, _) => False
  end
  /\ match Workflow.searchAdditionalSources (stateWith [plainItem] []) envSearchRecent
            emptyWorld with
     | (Ok p, w') =>
         Workflow.evaluateData (merge (stateWith [plainItem] []) p) envSearchRecent w'
         = (Ok (decision false), w')
         /\ tweets (merge (stateWith [plainItem] []) p) = JArr [plainItem]
     | (Throw _, _) => True
     end.
Proof.
  apply (follow_up_cannot_make_sufficient (stateWith [plainItem] []) envSearchRecent
           emptyWorld [plainItem]).
  - reflexivity.
  - vm_compute. reflexivity.
Defined.

(** X4: sufficiency is monotone in the collected content: for a fixed
    calendar year, once evaluateData finds the data sufficient it still
    does after more tweets or more otherContent are added. *)
Theorem evaluateData_monotone (env : Env) (st1 st2 : ConversationState)
    (w : World) (ts ts' more : list json) :
  tweets st1 = JArr ts ->
  tweets st2 = JArr (ts ++ ts') ->
  otherContent st2 = otherContent st1 ++ more ->
  (fst (Workflow.evaluateData st1 env w) = Ok (decision true) ->
   fst (Workflow.evaluateData st2 env w) = Ok (decision true))
  /\ (fst (WorkflowSafe.evaluateData st1 env w) = Ok (decision true) ->
      fst (WorkflowSafe.evaluateData st2 env w) = Ok (decision true)).
Proof.
  intros H1 H2 Ho.
  rewrite (evaluateData_array env st1 w ts H1),
          (evaluateData_array env st2 w (ts ++ ts') H2),
          (evaluateDataSafe_array env st1 w ts H1),
          (evaluateDataSafe_array env st2 w (ts ++ ts') H2).
  cbn [fst]. rewrite Ho, !length_app, existsb_app.
  assert (Hgrow : forall b,
    Ok (decision ((Z.of_nat (List.length ts)
                   + Z.of_nat (List.length (otherContent st1)) >=? 15) && b))
    = Ok (decision true) ->
    Ok (decision ((Z.of_nat (List.length ts + List.length ts')
                   + Z.of_nat (List.length (otherContent st1) + List.length more)
                   >=? 15)
                  && (b || existsb (Workflow.mentionsRecentYear (fullYear env)) ts')))
    = @Ok Patch (decision true)).
  { intros b Hb. injection Hb as Hb. apply andb_true_iff in Hb.
    destruct Hb as [Hn Hb]. rewrite Hb. cbn [orb]. rewrite andb_true_r.
    apply Z.geb_le in Hn.
    replace (_ >=? 15) with true; [reflexivity |].
    symmetry. apply Z.geb_le. lia. }
  split; apply Hgrow.
Qed.

Lemma evaluateData_monotone_witness :
  fst (Workflow.evaluateData (stateWith (repeat recentItem 15 ++ [plainItem])
                                        ([] ++ [plainItem]))
         (envAt 2025) emptyWorld) = Ok (decision true)
  /\ fst (WorkflowSafe.evaluateData (stateWith (repeat recentItem 15 ++ [plainItem])
                                               ([] ++ [plainItem]))
            (envAt 2025) emptyWorld) = Ok (decision true).
Proof.
  destruct (evaluateData_monotone (envAt 2025)
              (stateWith (repeat recentItem 15) [])
              (stateWith (repeat recentItem 15 ++ [plainItem]) ([] ++ [plainItem]))
              emptyWorld (repeat recentItem 15) [plainItem] [plainItem]
              eq_refl eq_refl eq_refl) as [Hplain Hsafe].
  split; [apply Hplain | apply Hsafe]; vm_compute; reflexivity.
Defined.

(** X19: a first search result that is truthy but not an array is
    stored as it comes by workflow.ts, and the evaluation of the
    resulting state throws; the hardened revision stores the empty
    array instead and its evaluation says insufficient. *)
Theorem unscannable_result_stops_evaluation (st : ConversationState) (env : Env)
    (w : World) (v : json) :
  tavily env (List.length (searches w))
         (personName st +:+ " tweets after:" +:+ oneYearAgoDate env) = Ok v ->
  truthy v = true ->
  (forall ts, v <> JArr ts) ->
  exists p q : Patch,
    Workflow.searchRecentTweets st env w
    = (Ok p, addSearch w (personName st +:+ " tweets after:" +:+ oneYearAgoDate env))
    /\ tweets (merge st p) = v
    /\ (exists e, forall w', Workflow.evaluateData (merge st p) env w' = (Throw e, w'))
    /\ WorkflowSafe.searchRecentTweets st env w
       = (Ok q, addSearch w (personName st +:+ " tweets after:" +:+ oneYearAgoDate env))
    /\ tweets (merge st q) = JArr []
    /\ forall w', WorkflowSafe.evaluateData (merge st q) env w'
                  = (Ok (decision false), w').
Proof.
  intros Hcall Htruthy Hshape.
  exists (mkPatch (Some v) None None (Some (searchAttempts st + 1)) None None None),
         (mkPatch (Some (JArr [])) None None (Some (searchAttempts st + 1))
                  None None None).
  assert (Hv : forall x, coalesceAny x (Some v) = v)
    by (intros x; destruct v; try reflexivity; discriminate Htruthy).
  assert (Hempty : arrayOrEmpty v = []).
  { destruct v; try reflexivity. now contradiction (Hshape items). }
  unfold Workflow.searchRecentTweets, WorkflowSafe.searchRecentTweets,
    bind, ask, ret, tryCatch, tavilyInvoke, addSearch.
  cbv beta iota zeta. rewrite Hcall, Hempty.
  split; [reflexivity |]. split; [cbn; apply Hv |]. split.
  - unfold Workflow.evaluateData. cbn [merge tweets p_tweets]. rewrite Hv, Htruthy.
    unfold bind, ask, throw.
    destruct v; try (eexists; intros w'; reflexivity).
    now contradiction (Hshape items).
  - split; [reflexivity |]. split; [reflexivity |].
    intros w'. unfold WorkflowSafe.evaluateData, bind, ask, ret. cbn.
    now rewrite andb_false_r.
Qed.

Lemma unscannable_result_stops_evaluation_witness :
  exists p q : Patch,
    Workflow.searchRecentTweets (stateWith [] []) envSearchText emptyWorld
    = (Ok p, addSearch emptyWorld
               (personName (stateWith [] []) +:+ " tweets after:"
                +:+ oneYearAgoDate envSearchText))
    /\ tweets (merge (stateWith [] []) p) = JStr "rate limit exceeded"
    /\ (exists e, forall w',
           Workflow.evaluateData (merge (stateWith [] []) p) envSearchText w'
           = (Throw e, w'))
    /\ WorkflowSafe.searchRecentTweets (stateWith [] []) envSearchText emptyWorld
       = (Ok q, addSearch emptyWorld
                  (personName (stateWith [] []) +:+ " tweets after:"
                   +:+ oneYearAgoDate envSearchText))
    /\ tweets (merge (stateWith [] []) q) = JArr []
    /\ forall w', WorkflowSafe.evaluateData (merge (stateWith [] []) q) envSearchText w'
                  = (Ok (decision false), w').
Proof.
  apply (unscannable_result_stops_evaluation (stateWith [] []) envSearchText
           emptyWorld (JStr "rate limit exceeded")).
  - reflexivity.
  - reflexivity.
  - intros ts; discriminate.
Defined.

End Collection.

Section Generation.

Lemma mapOutcome_total {A B : Type} (f : A -> Outcome B) (l : list A) :
  Forall (fun x => exists y, f x = Ok y) l ->
  exists ys, mapOutcome f l = Ok ys /\ List.length ys = List.length l.
Proof.
  induction 1 as [|x l [y Hy] _ (ys & Hys & Hlen)]; cbn [mapOutcome].
  - now exists [].
  - rewrite Hy, Hys. exists (y :: ys). cbn. now rewrite Hlen.
Qed.

Lemma summaryItem_total (item : json) :
  item <> JNull -> exists y, WorkflowSafe.summaryItem item = Ok y.
Proof.
  intros Hnn. unfold WorkflowSafe.summaryItem, getProp.
  destruct item; try (now contradiction Hnn); cbn;
    repeat match goal with
           | |- context [if ?b then _ else _] => destruct b
           end; eexists; reflexivity.
Qed.

Lemma occursIn_middle (pre t post : string) : occursIn t (pre +:+ t +:+ post).
Proof. now exists pre, post. Qed.

(** X10: the hardened [generateResponse] guards the model call only.
    When the tweets can be spread and none of the first 10 collected
    items is null, it never throws: it calls the model exactly once and
    answers with the model's text, or, when the model throws, with the
    apology that names the persona.  A missing query and an empty one
    both ask "Tell me about yourself". *)
Theorem generateResponse_never_throws (st : ConversationState)
    (query : option string) (env : Env) (w : World) (ts : list json) :
  spread (tweets st) = Ok ts ->
  Forall (fun item => item <> JNull) (take 10 (ts ++ otherContent st)) ->
  (exists prompt reply : string,
      WorkflowSafe.generateResponse st query env w
      = (Ok (mkPatch None None None None (Some reply) None None),
         addCall w (Prompt prompt))
      /\ (llm env (List.length (llmCalls w)) (Prompt prompt) = Ok reply
          \/ ((exists e, llm env (List.length (llmCalls w)) (Prompt prompt) = Throw e)
              /\ reply = WorkflowSafe.fallbackResponse st)))
  /\ occursIn (personName st) (WorkflowSafe.fallbackResponse st)
  /\ WorkflowSafe.generateResponse st None env w
     = WorkflowSafe.generateResponse st (Some "Tell me about yourself") env w
  /\ WorkflowSafe.generateResponse st (Some EmptyString) env w
     = WorkflowSafe.generateResponse st (Some "Tell me about yourself") env w.
Proof.
  intros Hspread Hitems.
  split; [| split; [apply occursIn_middle | split; reflexivity]].
  destruct (mapOutcome_total WorkflowSafe.summaryItem
              (take 10 (ts ++ otherContent st))) as (summaries & Hmap & _).
  { eapply Forall_impl; [exact Hitems |]. intros item. apply summaryItem_total. }
  unfold WorkflowSafe.generateResponse, bind, lift, ret, tryCatch, llmInvoke, addCall.
  rewrite Hspread, Hmap.
  destruct (llm env (List.length (llmCalls w)) _) as [reply|e] eqn:Hllm.
  - eexists _, reply. split; [reflexivity |]. left. exact Hllm.
  - eexists _, _. split; [reflexivity |]. right. split; [| reflexivity].
    exists e. exact Hllm.
Qed.

Lemma generateResponse_never_throws_witness :
  (exists prompt reply : string,
      WorkflowSafe.generateResponse (stateWith [recentItem; JStr "a note"] [JNum 7])
        (Some "hello") envModelDown emptyWorld
      = (Ok (mkPatch None None None None (Some reply) None None),
         addCall emptyWorld (Prompt prompt))
      /\ (llm envModelDown (List.length (llmCalls emptyWorld)) (Prompt prompt) = Ok reply
          \/ ((exists e,
                  llm envModelDown (List.length (llmCalls emptyWorld)) (Prompt prompt)
                  = Throw e)
              /\ reply
                 = WorkflowSafe.fallbackResponse
                     (stateWith [recentItem; JStr "a note"] [JNum 7]))))
  /\ occursIn (personName (stateWith [recentItem; JStr "a note"] [JNum 7]))
       (WorkflowSafe.fallbackResponse (stateWith [recentItem; JStr "a note"] [JNum 7]))
  /\ WorkflowSafe.generateResponse (stateWith [recentItem; JStr "a note"] [JNum 7])
       None envModelDown emptyWorld
     = WorkflowSafe.generateResponse (stateWith [recentItem; JStr "a note"] [JNum 7])
         (Some "Tell me about yourself") envModelDown emptyWorld
  /\ WorkflowSafe.generateResponse (stateWith [recentItem; JStr "a note"] [JNum 7])
       (Some EmptyString) envModelDown emptyWorld
     = WorkflowSafe.generateResponse (stateWith [recentItem; JStr "a note"] [JNum 7])
         (Some "Tell me about yourself") envModelDown emptyWorld.
Proof.
  apply (generateResponse_never_throws
           (stateWith [recentItem; JStr "a note"] [JNum 7]) (Some "hello")
           envModelDown emptyWorld [recentItem; JStr "a note"]).
  - reflexivity.
  - repeat constructor; discriminate.
Defined.

(** X11: the prompts are built from the head of the collected content
    only.  When the tweets hold 15 items or more, nothing in
    otherContent reaches the model through
    [generateConversationalResponse]: two states that differ only in
    otherContent get the same call and the same answer. *)
Theorem generate_ignores_content_beyond_15 (st : ConversationState)
    (other : list json) (env : Env) (w : World) (ts : list json) :
  tweets st = JArr ts ->
  (15 <= List.length ts)%nat ->
  Conversation.generateConversationalResponse
    (mkState (personName st) (tweets st) other (dataSufficient st)
             (searchAttempts st) (response st) (conversationHistory st)
             (currentQuery st) (personalityContext st)) env w
  = Conversation.generateConversationalResponse st env w.
Proof.
  intros Ht Hlen.
  unfold Conversation.generateConversationalResponse, bind, lift, ret, llmInvoke.
  cbn [tweets otherContent personName conversationHistory currentQuery].
  rewrite Ht. cbn [spread].
  rewrite !take_app_le by lia. reflexivity.
Qed.

Lemma generate_ignores_content_beyond_15_witness :
  Conversation.generateConversationalResponse
    (mkState "Ada" (JArr (repeat recentItem 15)) [plainItem] false 1 "" [] "" "")
    (envAt 2025) emptyWorld
  = Conversation.generateConversationalResponse
      (stateWith (repeat recentItem 15) []) (envAt 2025) emptyWorld.
Proof.
  apply (generate_ignores_content_beyond_15 (stateWith (repeat recentItem 15) [])
           [plainItem] (envAt 2025) emptyWorld (repeat recentItem 15)).
  - reflexivity.
  - cbn. lia.
Defined.

End Generation.

Section ClientRounds.

Import Client.

(** X17: the page and the chat handler agree on the typing indicator.
    Whatever the server does with a chat event, once the page has
    handled the events the server emitted, the indicator is off and
    exactly one message was added to the list, the reply or an error;
    the input, the selection and the connection flag are as before. *)
Theorem chat_round_settles_page (clock : nat -> Z) (page : Page)
    (sid : string) (chatted : Server.Payload) (dn : option string)
    (vbs : gmap string Voiceboard.Voiceboard) (env : Env) (w : World) :
  let page' :=
    deliver clock 0 (Server.emitted (Server.onChat sid chatted dn vbs env w)) page in
  isTyping page' = false
  /\ (exists m : Message,
        messages page' = messages page ++ [m]
        /\ (type m = ai \/ type m = error))
  /\ inputMessage page' = inputMessage page
  /\ selectedClone page' = selectedClone page
  /\ customName page' = customName page
  /\ isConnected page' = isConnected page.
Proof.
  cbv zeta. unfold Server.onChat.
  destruct chatted as [message|]; cbn [Server.destructure];
    [| cbn; repeat split; eexists; split; [reflexivity | now right]].
  destruct (Server.missing message);
    [cbn; repeat split; eexists; split; [reflexivity | now right] |].
  destruct (vbs !! sid) as [vb|];
    [| cbn; repeat split; eexists; split; [reflexivity | now right]].
  destruct (Voiceboard.chat _ vb env w) as [[[reply|e] vb'] w']; cbn;
    repeat split; eexists; (split; [reflexivity | tauto]).
Qed.

(** X18: the page and the create handler agree on the initializing
    flag.  Whatever the server does with a create-voiceboard event, once
    the page has handled the emitted events the flag is off, and the
    last message added is the ready notice for the name exactly when
    the server stored a Voiceboard, an error otherwise. *)
Theorem create_round_settles_page (clock : nat -> Z) (page : Page)
    (sid : string) (created : Server.Payload) (dn : option string)
    (vbs : gmap string Voiceboard.Voiceboard) (env : Env) (w : World) :
  let handled := Server.onCreateVoiceboard sid created dn vbs env w in
  let page' := deliver clock 0 (Server.emitted handled) page in
  isInitializing page' = false
  /\ exists (earlier : list Message) (m : Message),
       messages page' = messages page ++ earlier ++ [m]
       /\ (List.length earlier <= 1)%nat
       /\ ((type m = system
            /\ exists (name : string) (fresh : Voiceboard.Voiceboard),
                 created = Some (Some name)
                 /\ Voiceboard.new name = Ok fresh
                 /\ content m
                    = "Voiceboard initialized for " +:+ name +:+ ". Start chatting!"
                 /\ Server.registry handled
                    = <[sid := snd (fst (Voiceboard.initialize fresh env w))]> vbs)
           \/ (type m = error /\ Server.registry handled = vbs)).
Proof.
  cbv zeta. unfold Server.onCreateVoiceboard.
  destruct created as [personName|]; cbn [Server.destructure].
  2:{ cbn. split; [reflexivity |]. eexists [], _.
      split; [reflexivity |]. split; [cbn; lia | right; now split]. }
  destruct personName as [name|]; cbn [Server.missing Server.text].
  2:{ cbn. split; [reflexivity |]. eexists [], _.
      split; [reflexivity |]. split; [cbn; lia | right; now split]. }
  destruct (String.eqb name EmptyString).
  { cbn. split; [reflexivity |]. eexists [], _.
    split; [reflexivity |]. split; [cbn; lia | right; now split]. }
  destruct (Voiceboard.new name) as [fresh|e] eqn:Hnew.
  2:{ cbn. split; [reflexivity |]. eexists [], _.
      split; [reflexivity |]. split; [cbn; lia | right; now split]. }
  destruct (Voiceboard.initialize fresh env w) as [[[u|e] vb'] w']; cbn;
    (split; [reflexivity |]); eexists [_], _;
    (split; [rewrite <- app_assoc; reflexivity |]); (split; [cbn; lia |]).
  - left. split; [reflexivity |]. exists name, fresh. now repeat split.
  - right. now split.
Qed.

End ClientRounds.
